(** * Shahbaz AI backend: reply generation, persistence and image placeholder

    A shallow embedding of [src/main.py] and [src/schemas.py].

    - Python [str] values are lists of Unicode code points ([pystr]);
      literals are written as UTF-8 text and decoded by [py].
    - [dict] literals are finite maps ([gmap]).
    - The handlers [chat] and [image] run in a state-and-exception monad
      over a world holding the document store, the clock and the list of
      [create_document] calls made so far. *)

From Stdlib Require Import NArith ZArith String Ascii List Lia.
From stdpp Require Import base option list gmap.

Local Open Scope N_scope.

(** ** Python strings *)

Module PyStr.

(** A Python [str] is a sequence of code points. *)
Abbreviation pystr := (list N).

(** A code point that [str.encode("utf-8")] accepts: inside the Unicode
    range and not a surrogate. *)
Definition is_scalar (c : N) : bool :=
  (c <? 0x110000) && negb ((0xD800 <=? c) && (c <? 0xE000)).

Definition well_formed (s : pystr) : Prop := Forall (fun c => is_scalar c = true) s.

(** [str.encode("utf-8")] on one code point; [None] stands for
    [UnicodeEncodeError]. *)
Definition utf8_encode_cp (c : N) : option (list N) :=
  if c <? 0x80 then Some [c]
  else if c <? 0x800 then Some [0xC0 + c / 64; 0x80 + c mod 64]
  else if c <? 0x10000 then
    if (0xD800 <=? c) && (c <? 0xE000) then None
    else Some [0xE0 + c / 4096; 0x80 + (c / 64) mod 64; 0x80 + c mod 64]
  else if c <? 0x110000 then
    Some [0xF0 + c / 262144; 0x80 + (c / 4096) mod 64;
          0x80 + (c / 64) mod 64; 0x80 + c mod 64]
  else None.

Fixpoint utf8_encode (s : pystr) : option (list N) :=
  match s with
  | [] => Some []
  | c :: s' =>
      match utf8_encode_cp c, utf8_encode s' with
      | Some bs, Some r => Some (bs ++ r)
      | _, _ => None
      end
  end.

Definition is_cont (b : N) : bool := (0x80 <=? b) && (b <? 0xC0).

(** [bytes.decode("utf-8")], strict: continuation bytes, shortest form,
    no surrogates, nothing above U+10FFFF. [None] stands for
    [UnicodeDecodeError]. *)
Fixpoint utf8_decode (bs : list N) : option pystr :=
  match bs with
  | [] => Some []
  | b0 :: r0 =>
      if b0 <? 0x80 then cons b0 <$> utf8_decode r0
      else if b0 <? 0xC0 then None
      else
        match r0 with
        | [] => None
        | b1 :: r1 =>
            if b0 <? 0xE0 then
              let c := (b0 - 0xC0) * 64 + (b1 - 0x80) in
              if is_cont b1 && (0x80 <=? c) then cons c <$> utf8_decode r1
              else None
            else
              match r1 with
              | [] => None
              | b2 :: r2 =>
                  if b0 <? 0xF0 then
                    let c := (b0 - 0xE0) * 4096 + (b1 - 0x80) * 64 + (b2 - 0x80) in
                    if is_cont b1 && is_cont b2 && (0x800 <=? c)
                       && negb ((0xD800 <=? c) && (c <? 0xE000))
                    then cons c <$> utf8_decode r2
                    else None
                  else
                    match r2 with
                    | [] => None
                    | b3 :: r3 =>
                        let c := (b0 - 0xF0) * 262144 + (b1 - 0x80) * 4096
                                 + (b2 - 0x80) * 64 + (b3 - 0x80) in
                        if (b0 <? 0xF8) && is_cont b1 && is_cont b2 && is_cont b3
                           && (0x10000 <=? c) && (c <? 0x110000)
                        then cons c <$> utf8_decode r3
                        else None
                    end
              end
        end
  end.

Definition bytes_of_string (s : string) : list N :=
  map N_of_ascii (list_ascii_of_string s).

(** The one escape sequence the source's literals use: a backslash
    followed by [n] is a line feed. *)
Fixpoint unescape (bs : list N) : list N :=
  match bs with
  | 92 :: 110 :: r => 10 :: unescape r
  | b :: r => b :: unescape r
  | [] => []
  end.

(** A string literal of the source: the UTF-8 text between the quotes,
    escapes resolved, as code points. *)
Definition py (s : string) : pystr :=
  default [] (utf8_decode (unescape (bytes_of_string s))).

(** A literal of the source that holds double quotes is written here
    with single quotes in their place; [quoted] puts the double quotes
    back. It is used only on text that has no single quote of its own. *)
Definition quoted (s : pystr) : pystr :=
  map (fun c => if c =? 39 then 34 else c) s.

(** [str.isspace] on one code point: the code points Python treats as
    whitespace in [strip] and [split]. *)
Definition isspace (c : N) : bool :=
  ((0x09 <=? c) && (c <=? 0x0D)) || ((0x1C <=? c) && (c <=? 0x20))
  || (c =? 0x85) || (c =? 0xA0) || (c =? 0x1680)
  || ((0x2000 <=? c) && (c <=? 0x200A))
  || (c =? 0x2028) || (c =? 0x2029) || (c =? 0x202F) || (c =? 0x205F)
  || (c =? 0x3000).

Fixpoint lstrip (s : pystr) : pystr :=
  match s with
  | c :: s' => if isspace c then lstrip s' else s
  | [] => []
  end.

Definition rstrip (s : pystr) : pystr := rev (lstrip (rev s)).

(** [s.strip()] *)
Definition strip (s : pystr) : pystr := rstrip (lstrip s).

(** [s.split()] with no argument: maximal runs of non-whitespace.
    [cur] holds the current run, reversed. *)
Fixpoint split_from (cur : pystr) (s : pystr) : list pystr :=
  match s with
  | [] => match cur with [] => [] | _ => [rev cur] end
  | c :: s' =>
      if isspace c then
        match cur with
        | [] => split_from [] s'
        | _ => rev cur :: split_from [] s'
        end
      else split_from (c :: cur) s'
  end.

Definition split (s : pystr) : list pystr := split_from [] s.

(** [sep.join(items)] *)
Fixpoint join (sep : pystr) (items : list pystr) : pystr :=
  match items with
  | [] => []
  | [x] => x
  | x :: rest => x ++ sep ++ join sep rest
  end.

Definition is_ascii (c : N) : bool := c <? 0x80.

Definition ascii_lower_cp (c : N) : N :=
  if (0x41 <=? c) && (c <=? 0x5A) then c + 0x20 else c.

(** [s.lower()]. On a string of ASCII characters it maps A-Z to a-z and
    leaves the rest; on any other string it is Python's Unicode case
    mapping, which is not part of this repository and is taken as the
    parameter [unicode_lower]. *)
Definition lower (unicode_lower : pystr -> pystr) (s : pystr) : pystr :=
  if forallb is_ascii s then map ascii_lower_cp s else unicode_lower s.

(** [s[:n]] *)
Definition slice_to (n : nat) (s : pystr) : pystr := take n s.

End PyStr.

Import PyStr.

(** ** Reply generation (src/main.py, helpers) *)

(** Python's Unicode lower-casing of strings that are not pure ASCII. *)
Class PyRuntime := { unicode_lower : pystr -> pystr }.

Section Helpers.

Context `{PyRuntime}.

(** [_tone_wrap(text, mode)] *)
Definition _tone_wrap (text mode : pystr) : pystr :=
  if decide (mode = py "student") then
    py "Student Mode:\n" ++
    py "- Simple explanation\n- Key points\n- Short example\n\n" ++ text
  else if decide (mode = py "professional") then
    py "Professional Mode:\n" ++
    py "- Concise\n- Actionable\n- Business tone\n\n" ++ text
  else if decide (mode = py "fun") then
    py "Fun Mode 🎉:\n" ++ text ++ py "\n(peppered with a friendly, upbeat vibe)"
  else text.

(** The [translations] dict of [_generate_reply]. *)
Definition translations : gmap pystr (gmap pystr pystr) :=
  list_to_map
    [ (py "hello", list_to_map [(py "ur", py "سلام"); (py "hi", py "नमस्ते")]);
      (py "how are you",
       list_to_map [(py "ur", py "آپ کیسے ہیں"); (py "hi", py "आप कैसे हैं")]) ].

(** [_generate_reply(prompt, mode, language)] *)
Definition _generate_reply (prompt mode language : pystr) : pystr :=
  let base := strip prompt in
  if decide (mode = py "translation") then
    let key := lower unicode_lower base in
    match translations !! key with
    | Some entry =>
        match entry !! language with
        | Some text => py "Translation (" ++ language ++ py "): " ++ text
        | None => py "Translation (" ++ language ++ py "): " ++ base
        end
    | None => py "Translation (" ++ language ++ py "): " ++ base
    end
  else if decide (mode = py "summary") then
    let words := split base in
    let summary :=
      if (40 <? length words)%nat
      then join (py " ") (take 40 words) ++ py "…"
      else base in
    py "Summary: " ++ summary
  else if decide (mode = py "writing") then
    py "Here is a polished draft based on your request:\n\n" ++
    py "Title: " ++ slice_to 60 base ++ py "\n\n" ++
    py "Paragraph 1: A clear introduction that frames the goal and context.\n\n" ++
    py "Paragraph 2: Key insights, structure, and supporting details with a smooth narrative.\n\n" ++
    py "Paragraph 3: A succinct wrap‑up with next steps and a strong closing."
  else
    py "Answer: " ++
    base ++ py "\n\n" ++
    py "Key points:\n- Direct answer\n- Extra context\n- Practical tip".

(** The [bank] dict of [_smart_suggestions]. *)
Definition bank : gmap pystr (list pystr) :=
  list_to_map
    [ (py "qa", [py "Explain in simple terms"; py "Give key takeaways"; py "Add examples"]);
      (py "writing", [py "Draft an outline"; py "Expand to 1000 words"; py "Refine tone"]);
      (py "translation", [py "Detect language"; py "Back-translate"; py "Transliterate"]);
      (py "summary", [py "Bullet summary"; py "TL;DR"; py "Action items"]);
      (py "student", [py "Create study notes"; py "Make quiz questions";
                      py "Explain like I'm 12"]);
      (py "professional", [py "Make an executive summary"; py "Draft an email"; py "Create a plan"]);
      (py "fun", [py "Tell a pun"; py "Make it playful"; py "Add emojis"]) ].

(** [mode or "qa"] for a value that is [None] or a string. *)
Definition or_qa (mode : option pystr) : pystr :=
  match mode with
  | None => py "qa"
  | Some [] => py "qa"
  | Some m => m
  end.

(** [_smart_suggestions(mode)]: [bank.get(mode or "qa", bank["qa"])[:3]] *)
Definition _smart_suggestions (mode : option pystr) : list pystr :=
  take 3 (default (bank !!! py "qa") (bank !! or_qa mode)).

End Helpers.


(** ** Base64 (Python's [base64.b64encode], RFC 4648 alphabet) *)

Module Base64.

(** The character of a 6-bit value: A-Z, a-z, 0-9, +, /. *)
Definition b64char (n : N) : N :=
  if n <? 26 then 65 + n
  else if n <? 52 then 97 + (n - 26)
  else if n <? 62 then 48 + (n - 52)
  else if n =? 62 then 43
  else 47.

Definition pad : N := 61.

Fixpoint b64encode (bs : list N) : list N :=
  match bs with
  | [] => []
  | [a] => [b64char (a / 4); b64char ((a mod 4) * 16); pad; pad]
  | [a; b] =>
      [b64char (a / 4); b64char ((a mod 4) * 16 + b / 16);
       b64char ((b mod 16) * 4); pad]
  | a :: b :: c :: r =>
      b64char (a / 4) :: b64char ((a mod 4) * 16 + b / 16)
      :: b64char ((b mod 16) * 4 + c / 64) :: b64char (c mod 64)
      :: b64encode r
  end.

(** The 6-bit value of a character, [None] outside the alphabet. *)
Definition b64val (c : N) : option N :=
  if (65 <=? c) && (c <=? 90) then Some (c - 65)
  else if (97 <=? c) && (c <=? 122) then Some (c - 97 + 26)
  else if (48 <=? c) && (c <=? 57) then Some (c - 48 + 52)
  else if c =? 43 then Some 62
  else if c =? 47 then Some 63
  else None.

(** Strict decoding: groups of four characters, padding only in the
    last group, unused low bits zero. *)
Fixpoint b64decode (cs : list N) : option (list N) :=
  match cs with
  | [] => Some []
  | c0 :: c1 :: c2 :: c3 :: r =>
      match b64val c0, b64val c1 with
      | Some v0, Some v1 =>
          if (c2 =? pad) && (c3 =? pad) then
            match r with
            | [] => if v1 mod 16 =? 0 then Some [v0 * 4 + v1 / 16] else None
            | _ => None
            end
          else
            match b64val c2 with
            | Some v2 =>
                if c3 =? pad then
                  match r with
                  | [] =>
                      if v2 mod 4 =? 0
                      then Some [v0 * 4 + v1 / 16; (v1 mod 16) * 16 + v2 / 4]
                      else None
                  | _ => None
                  end
                else
                  match b64val c3, b64decode r with
                  | Some v3, Some out =>
                      Some (v0 * 4 + v1 / 16 :: (v1 mod 16) * 16 + v2 / 4
                            :: (v2 mod 4) * 64 + v3 :: out)
                  | _, _ => None
                  end
            | None => None
            end
      | _, _ => None
      end
  | _ => None
  end.

End Base64.

Import Base64.

(** ** The SVG template of [image] *)

(** The text of the f-string before [{title}]. *)
Definition svg_head : pystr := quoted (py "<svg xmlns='http://www.w3.org/2000/svg' width='1024' height='1024' viewBox='0 0 1024 1024'>
    <defs>
      <linearGradient id='g' x1='0' x2='1' y1='0' y2='1'>
        <stop offset='0%' stop-color='#00A8FF'/>
        <stop offset='50%' stop-color='#00EFFF'/>
        <stop offset='100%' stop-color='#64FFFF'/>
      </linearGradient>
      <filter id='glow' x='-40%' y='-40%' width='180%' height='180%'>
        <feGaussianBlur stdDeviation='12' result='coloredBlur'/>
        <feMerge>
          <feMergeNode in='coloredBlur'/>
          <feMergeNode in='SourceGraphic'/>
        </feMerge>
      </filter>
    </defs>
    <rect width='1024' height='1024' fill='#000814'/>
    <circle cx='512' cy='512' r='360' fill='url(#g)' opacity='0.15' filter='url(#glow)'/>
    <path d='M512 240 C600 260 700 340 720 460 C700 520 620 560 560 640 C520 700 520 760 512 784 C504 760 504 700 464 640 C404 560 324 520 304 460 C324 340 424 260 512 240 Z' fill='url(#g)' opacity='0.9' filter='url(#glow)'/>
    <text x='50%' y='82%' dominant-baseline='middle' text-anchor='middle' font-family='Inter, Arial' font-size='44' fill='#E6F7FF' opacity='0.95'>").

(** The text of the f-string after [{title}]. *)
Definition svg_tail : pystr := quoted (py "</text>
    <text x='50%' y='90%' dominant-baseline='middle' text-anchor='middle' font-family='Inter, Arial' font-size='24' fill='#8AD8FF' opacity='0.85'>Shahbaz AI · BlueFlame</text>
  </svg>").

(** ** Data model (src/schemas.py and the request models of src/main.py) *)

Inductive Mode := Qa | Writing | Translation | Summary | Student | Professional | Fun.
Inductive Language := En | Ur | Hi.
Inductive Role := User | Assistant | System.

Definition Mode_str (m : Mode) : pystr :=
  match m with
  | Qa => py "qa"
  | Writing => py "writing"
  | Translation => py "translation"
  | Summary => py "summary"
  | Student => py "student"
  | Professional => py "professional"
  | Fun => py "fun"
  end.

Definition Language_str (l : Language) : pystr :=
  match l with En => py "en" | Ur => py "ur" | Hi => py "hi" end.

Module ChatSession.
Record t := { title : pystr; mode : Mode }.
End ChatSession.

Module ChatMessage.
Record t := {
  session_id : pystr;
  role : Role;
  content : pystr;
  mode : option Mode;
  meta : option (gmap pystr pystr)
}.
End ChatMessage.

(** [schemas.ImageRequest], the stored record. *)
Module ImgReq.
Record t := { prompt : pystr; style : option pystr }.
End ImgReq.

Module ChatRequest.
Record t := {
  message : pystr;
  session_id : option pystr;
  mode : option Mode;
  language : option Language
}.
End ChatRequest.

(** The dict returned by [chat]. *)
Module ChatResponse.
Record t := {
  session_id : pystr;
  reply : pystr;
  suggestions : list pystr;
  mode : pystr;
  created_at : pystr
}.
End ChatResponse.

(** [main.ImageRequest], the request body of [image]. *)
Module ImageRequest.
Record t := { prompt : pystr; style : option pystr }.
End ImageRequest.

(** A pydantic model handed to [create_document]. *)
Inductive Document :=
  | DocSession (d : ChatSession.t)
  | DocMessage (d : ChatMessage.t)
  | DocImage (d : ImgReq.t).

(** ** Clock *)

Module DateTime.

Record t := {
  year : N; month : N; day : N;
  hour : N; minute : N; second : N; microsecond : N
}.

(** The last [width] decimal digits of [n], zero padded. *)
Fixpoint zfill (width : nat) (n : N) : pystr :=
  match width with
  | O => []
  | S w => zfill w (n / 10) ++ [48 + n mod 10]
  end.

(** [strftime('%H:%M')] *)
Definition strftime_HM (d : t) : pystr :=
  zfill 2 (hour d) ++ py ":" ++ zfill 2 (minute d).

(** [isoformat()]: the fraction is printed only when it is not zero. *)
Definition isoformat (d : t) : pystr :=
  zfill 4 (year d) ++ py "-" ++ zfill 2 (month d) ++ py "-" ++ zfill 2 (day d)
  ++ py "T" ++ zfill 2 (hour d) ++ py ":" ++ zfill 2 (minute d) ++ py ":"
  ++ zfill 2 (second d)
  ++ (if microsecond d =? 0 then [] else py "." ++ zfill 6 (microsecond d)).

End DateTime.

(** ** Exceptions *)

(** A raised exception, an instance of a subclass of [Exception], by
    its class name. Interpreter exits ([KeyboardInterrupt], [SystemExit])
    are outside the model. *)
Record exn := { exc_type : pystr }.

Definition UnicodeEncodeError : exn := {| exc_type := py "UnicodeEncodeError" |}.
Definition UnicodeDecodeError : exn := {| exc_type := py "UnicodeDecodeError" |}.

(** The document store behind [create_document], imported by main.py
    from the [database] module and kept abstract here: inserting a
    document into a collection either raises or returns the id the store
    assigned, and leaves a new store state either way. *)
Class Database := {
  Store : Type;
  database_insert : pystr -> Document -> Store -> (exn + pystr) * Store
}.

(** ** The handlers *)

Section Handlers.

Context `{PyRuntime} `{Database}.

(** What a handler can see and change: the store, the clock (its
    readings in order, and how many were taken), and the
    [create_document] calls made so far, oldest first. *)
Record World := {
  store : Store;
  clock : nat -> DateTime.t;
  ticks : nat;
  calls : list (pystr * Document)
}.

(** Computations that read and change the world and may raise. *)
Definition M (A : Type) : Type := World -> (exn + A) * World.

Definition ret {A} (a : A) : M A := fun w => (inr a, w).

Definition bind {A B} (c : M A) (k : A -> M B) : M B :=
  fun w =>
    match c w with
    | (inr a, w') => k a w'
    | (inl e, w') => (inl e, w')
    end.

Definition raise {A} (e : exn) : M A := fun w => (inl e, w).

#[local] Notation "'do' x <- c ; k" := (bind c (fun x => k))
  (at level 10, x name, c at level 100, k at level 200).
#[local] Notation "'run' c ; k" := (bind c (fun _ => k))
  (at level 10, c at level 100, k at level 200).

(** [try: body / except Exception: handler] *)
Definition try_except_Exception {A} (body handler : M A) : M A :=
  fun w =>
    match body w with
    | (inl _, w') => handler w'
    | r => r
    end.

(** [datetime.utcnow()] *)
Definition utcnow : M DateTime.t :=
  fun w =>
    (inr (clock w (ticks w)),
     {| store := store w; clock := clock w; ticks := S (ticks w); calls := calls w |}).

(** [create_document(collection_name, data)] *)
Definition create_document (collection_name : pystr) (data : Document) : M pystr :=
  fun w =>
    let '(r, s') := database_insert collection_name data (store w) in
    (r, {| store := s'; clock := clock w; ticks := ticks w;
           calls := calls w ++ [(collection_name, data)] |}).

(** [x or "qa"], [x or "en"] on the optional enum fields. *)
Definition mode_or_qa (m : option Mode) : Mode := default Qa m.
Definition language_or_en (l : option Language) : Language := default En l.

(** [not session_id]: the field is [None] or the empty string. *)
Definition falsy (s : option pystr) : bool :=
  match s with
  | None => true
  | Some [] => true
  | Some _ => false
  end.

(** [chat(req)], POST /api/chat *)
Definition chat (req : ChatRequest.t) : M ChatResponse.t :=
  do session_id <-
    (if falsy (ChatRequest.session_id req) then
       do now <- utcnow;
       let session :=
         {| ChatSession.title := py "Chat – " ++ DateTime.strftime_HM now;
            ChatSession.mode := mode_or_qa (ChatRequest.mode req) |} in
       create_document (py "chatsession") (DocSession session)
     else ret (default [] (ChatRequest.session_id req)));
  let user_msg :=
    {| ChatMessage.session_id := session_id; ChatMessage.role := User;
       ChatMessage.content := ChatRequest.message req;
       ChatMessage.mode := ChatRequest.mode req; ChatMessage.meta := None |} in
  run create_document (py "chatmessage") (DocMessage user_msg);
  let core :=
    _generate_reply (ChatRequest.message req)
      (Mode_str (mode_or_qa (ChatRequest.mode req)))
      (Language_str (language_or_en (ChatRequest.language req))) in
  let reply_text := _tone_wrap core (Mode_str (mode_or_qa (ChatRequest.mode req))) in
  let assistant_msg :=
    {| ChatMessage.session_id := session_id; ChatMessage.role := Assistant;
       ChatMessage.content := reply_text;
       ChatMessage.mode := ChatRequest.mode req; ChatMessage.meta := None |} in
  run create_document (py "chatmessage") (DocMessage assistant_msg);
  let suggestions := _smart_suggestions (Some (Mode_str (mode_or_qa (ChatRequest.mode req)))) in
  do now <- utcnow;
  ret {| ChatResponse.session_id := session_id;
         ChatResponse.reply := reply_text;
         ChatResponse.suggestions := suggestions;
         ChatResponse.mode := Mode_str (mode_or_qa (ChatRequest.mode req));
         ChatResponse.created_at := DateTime.isoformat now |}.

(** [(req.prompt or "Shahbaz AI").strip()] *)
Definition effective_prompt (p : pystr) : pystr :=
  strip (match p with [] => py "Shahbaz AI" | _ => p end).

(** The markup built by [image]: the template around the title. *)
Definition svg_of (p : pystr) : pystr :=
  let prompt := effective_prompt p in
  let title := slice_to 80 prompt in
  svg_head ++ title ++ svg_tail.

Definition of_option {A} (e : exn) (o : option A) : M A :=
  match o with Some a => ret a | None => raise e end.

(** [image(req)], POST /api/image; the result is the value under the
    key "image". *)
Definition image (req : ImageRequest.t) : M pystr :=
  let svg := svg_of (ImageRequest.prompt req) in
  do encoded <- of_option UnicodeEncodeError (utf8_encode svg);
  do b64 <- of_option UnicodeDecodeError (utf8_decode (b64encode encoded));
  let data_uri := py "data:image/svg+xml;base64," ++ b64 in
  run try_except_Exception
        (run create_document (py "imagerequest")
               (DocImage {| ImgReq.prompt := ImageRequest.prompt req;
                            ImgReq.style := ImageRequest.style req |});
         ret tt)
        (ret tt);
  ret data_uri.

End Handlers.

(** ** Specification vocabulary *)

(** The documents handed to [create_document] for one collection, in
    call order. *)
Definition inserts_into (collection_name : pystr) (cs : list (pystr * Document))
  : list Document :=
  snd <$> filter (fun c => c.1 = collection_name) cs.

(** The [create_document] calls made between two worlds. *)
Definition new_calls `{Database} (w w' : World) : list (pystr * Document) :=
  drop (length (calls w)) (calls w').

(** The store never raises: [create_document] returns an id from every
    state. *)
Definition store_available `{Database} : Prop :=
  forall c d s, exists id s', database_insert c d s = (inr id, s').

(** The documents [chat] and [image] build. *)
Definition session_doc (req : ChatRequest.t) (now : DateTime.t) : Document :=
  DocSession {| ChatSession.title := py "Chat – " ++ DateTime.strftime_HM now;
                ChatSession.mode := mode_or_qa (ChatRequest.mode req) |}.

Definition message_doc (sid : pystr) (r : Role) (text : pystr) (m : option Mode)
  : Document :=
  DocMessage {| ChatMessage.session_id := sid; ChatMessage.role := r;
                ChatMessage.content := text; ChatMessage.mode := m;
                ChatMessage.meta := None |}.

Definition image_doc (req : ImageRequest.t) : Document :=
  DocImage {| ImgReq.prompt := ImageRequest.prompt req;
              ImgReq.style := ImageRequest.style req |}.

(** The reply text of a request: generate, then wrap. *)
Definition reply_of `{PyRuntime} (req : ChatRequest.t) : pystr :=
  let m := Mode_str (mode_or_qa (ChatRequest.mode req)) in
  _tone_wrap
    (_generate_reply (ChatRequest.message req) m
       (Language_str (language_or_en (ChatRequest.language req)))) m.

(** [s] without the prefix [p], when it has it. *)
Fixpoint strip_prefix (p s : pystr) : option pystr :=
  match p, s with
  | [], _ => Some s
  | a :: p', b :: s' => if a =? b then strip_prefix p' s' else None
  | _ :: _, [] => None
  end.

Definition strip_suffix (p s : pystr) : option pystr :=
  (fun r => rev r) <$> strip_prefix (rev p) (rev s).

(** Reading a data URI back: the base64 text after the media type,
    decoded to bytes and then to text. *)
Definition decode_data_uri (uri : pystr) : option pystr :=
  b64 ← strip_prefix (py "data:image/svg+xml;base64,") uri;
  bs ← b64decode b64;
  utf8_decode bs.

(** The title text of the markup: what stands between the two fixed
    parts of the template. *)
Definition embedded_title (svg : pystr) : option pystr :=
  strip_prefix svg_head svg ≫= strip_suffix svg_tail.

(** ** A store and a runtime to run the handlers on concrete inputs *)

(** Pure-ASCII runtime: other strings are left as they are. *)
Definition ascii_runtime : PyRuntime := {| unicode_lower := fun s => s |}.

(** An in-memory store: documents in insertion order with their ids.
    It takes every insert. *)
Module MemStore.

Definition t : Type := list (pystr * pystr * Document).

Definition insert (collection_name : pystr) (data : Document) (s : t)
  : (exn + pystr) * t :=
  let id := py "id-" ++ DateTime.zfill 4 (N.of_nat (length s)) in
  (inr id, s ++ [(collection_name, id, data)]).

Definition database : Database := {| Store := t; database_insert := insert |}.

Definition noon : DateTime.t := DateTime.Build_t 2024 3 9 12 0 0 0.

(** An empty store, a clock stuck at noon, no calls yet. *)
Definition world : @World database := @Build_World database [] (fun _ => noon) 0 [].

End MemStore.

(** The same store with outages: inserts into a collection listed in
    [down] raise and leave the store as it was. *)
Module FlakyStore.

Record t := { docs : MemStore.t; down : list pystr }.

Definition ServerSelectionTimeoutError : exn :=
  {| exc_type := py "ServerSelectionTimeoutError" |}.

Definition insert (collection_name : pystr) (data : Document) (s : t)
  : (exn + pystr) * t :=
  if bool_decide (collection_name ∈ down s) then
    (inl ServerSelectionTimeoutError, s)
  else
    let '(r, d) := MemStore.insert collection_name data (docs s) in
    (r, {| docs := d; down := down s |}).

Definition database : Database := {| Store := t; database_insert := insert |}.

Definition world (down : list pystr) : @World database :=
  @Build_World database {| docs := []; down := down |} (fun _ => MemStore.noon) 0 [].

End FlakyStore.

(** Requests used in the checks. *)
Definition demo_request : ChatRequest.t :=
  {| ChatRequest.message := py "How are you"; ChatRequest.session_id := None;
     ChatRequest.mode := Some Translation; ChatRequest.language := Some Hi |}.

Definition demo_followup : ChatRequest.t :=
  {| ChatRequest.message := py "hello"; ChatRequest.session_id := Some (py "id-0000");
     ChatRequest.mode := Some Fun; ChatRequest.language := Some Ur |}.

Definition demo_null_mode : ChatRequest.t :=
  {| ChatRequest.message := py "What is a flame?"; ChatRequest.session_id := Some (py "s1");
     ChatRequest.mode := None; ChatRequest.language := None |}.

Definition demo_qa_mode : ChatRequest.t :=
  {| ChatRequest.message := py "What is a flame?"; ChatRequest.session_id := None;
     ChatRequest.mode := Some Qa; ChatRequest.language := None |}.

Definition demo_image : ImageRequest.t :=
  {| ImageRequest.prompt := py "  blue flame <logo>  "; ImageRequest.style := Some (py "neon") |}.

Definition empty_image : ImageRequest.t :=
  {| ImageRequest.prompt := []; ImageRequest.style := None |}.

Definition forty_words : pystr :=
  py "w01 w02 w03 w04 w05 w06 w07 w08 w09 w10 w11 w12 w13 w14 w15 w16 w17 w18 w19 w20 w21 w22 w23 w24 w25 w26 w27 w28 w29 w30 w31 w32 w33 w34 w35 w36 w37 w38 w39 w40".

Definition forty_one_words : pystr := forty_words ++ py "  w41".

(** Runs used in the checks. *)
Definition demo_run := @chat ascii_runtime MemStore.database demo_request MemStore.world.

Definition demo_response : ChatResponse.t :=
  {| ChatResponse.session_id := py "id-0000";
     ChatResponse.reply := py "Translation (hi): आप कैसे हैं";
     ChatResponse.suggestions :=
       [py "Detect language"; py "Back-translate"; py "Transliterate"];
     ChatResponse.mode := py "translation";
     ChatResponse.created_at := py "2024-03-09T12:00:00" |}.

(** A second call, on the world the first one left, with the id it
    returned. *)
Definition followup_run := @chat ascii_runtime MemStore.database demo_followup demo_run.2.

Definition followup_response : ChatResponse.t :=
  {| ChatResponse.session_id := py "id-0000";
     ChatResponse.reply :=
       py "Fun Mode 🎉:\nAnswer: hello\n\nKey points:\n- Direct answer\n- Extra context\n- Practical tip\n(peppered with a friendly, upbeat vibe)";
     ChatResponse.suggestions := [py "Tell a pun"; py "Make it playful"; py "Add emojis"];
     ChatResponse.mode := py "fun";
     ChatResponse.created_at := py "2024-03-09T12:00:00" |}.

Definition null_mode_run :=
  @chat ascii_runtime MemStore.database demo_null_mode MemStore.world.

Definition null_mode_response : ChatResponse.t :=
  {| ChatResponse.session_id := py "s1";
     ChatResponse.reply :=
       py "Answer: What is a flame?\n\nKey points:\n- Direct answer\n- Extra context\n- Practical tip";
     ChatResponse.suggestions :=
       [py "Explain in simple terms"; py "Give key takeaways"; py "Add examples"];
     ChatResponse.mode := py "qa";
     ChatResponse.created_at := py "2024-03-09T12:00:00" |}.

(** The same question with mode "qa", asked after two other calls. *)
Definition qa_mode_run :=
  @chat ascii_runtime MemStore.database demo_qa_mode followup_run.2.

Definition qa_mode_response : ChatResponse.t :=
  {| ChatResponse.session_id := py "id-0005";
     ChatResponse.reply := ChatResponse.reply null_mode_response;
     ChatResponse.suggestions := ChatResponse.suggestions null_mode_response;
     ChatResponse.mode := py "qa";
     ChatResponse.created_at := py "2024-03-09T12:00:00" |}.

(** ** The other routes of src/main.py *)

(** [get_modes()], GET /api/modes: the list under the key "modes". *)
Definition get_modes : list pystr :=
  [py "qa"; py "writing"; py "translation"; py "summary"; py "student";
   py "professional"; py "fun"].

(** A value of a stored document: a [str], or another object (an
    ObjectId, a number, ...) carried with the text [str()] gives for it. *)
Inductive Value :=
  | VStr (s : pystr)
  | VObj (text : pystr).

(** [str(v)] *)
Definition py_str (v : Value) : pystr :=
  match v with
  | VStr s => s
  | VObj text => text
  end.

(** [str(e)] for a raised exception: the message Python prints for it. *)
Class ExnText := { exn_str : exn -> pystr }.

(** The read side of the store, behind [get_documents], kept abstract
    like the write side: a query on a collection with a filter and a
    limit either raises or returns documents. *)
Class DocumentQueries `{Database} := {
  database_find :
    pystr -> gmap pystr Value -> Z -> Store -> (exn + list (gmap pystr Value)) * Store
}.

(** What FastAPI is handed when a route raises [HTTPException]. *)
Record HTTPException := { status_code : N; detail : pystr }.

(** What the [except Exception as e] of the listing routes can catch:
    an exception of the store, or the [KeyError] of [d["_id"]]. *)
Inductive caught :=
  | Raised (e : exn)
  | KeyError (key : pystr).

(** [str(e)] of what was caught. For a [KeyError] it is the repr of the
    key, which for a key without quotes or escapes is the key between
    single quotes. *)
Definition caught_str `{ExnText} (c : caught) : pystr :=
  match c with
  | Raised e => exn_str e
  | KeyError key => py "'" ++ key ++ py "'"
  end.

(** The loop [for d in docs: d["_id"] = str(d["_id"])]. *)
Fixpoint stringify_ids (docs : list (gmap pystr Value))
  : caught + list (gmap pystr Value) :=
  match docs with
  | [] => inr []
  | d :: rest =>
      match d !! py "_id" with
      | None => inl (KeyError (py "_id"))
      | Some v =>
          match stringify_ids rest with
          | inl c => inl c
          | inr rest' => inr (<[py "_id" := VStr (py_str v)]> d :: rest')
          end
      end
  end.

Section Listing.

Context `{ExnText} `{DocumentQueries}.

(** [get_documents(collection_name, filter_dict, limit)] *)
Definition get_documents (collection_name : pystr) (filter_dict : gmap pystr Value)
    (limit : Z) : M (list (gmap pystr Value)) :=
  fun w =>
    let '(r, s') := database_find collection_name filter_dict limit (store w) in
    (r, {| store := s'; clock := clock w; ticks := ticks w; calls := calls w |}).

(** [list_sessions(limit)], GET /api/sessions; [None] is the query
    parameter left out. The result is the list under "sessions". *)
Definition list_sessions (limit : option Z)
  : World -> (HTTPException + list (gmap pystr Value)) * World :=
  fun w =>
    match get_documents (py "chatsession") ∅ (default 50%Z limit) w with
    | (inr docs, w') =>
        match stringify_ids docs with
        | inr docs' => (inr docs', w')
        | inl e => (inl {| status_code := 500; detail := caught_str e |}, w')
        end
    | (inl e, w') => (inl {| status_code := 500; detail := caught_str (Raised e) |}, w')
    end.

(** [list_messages(session_id, limit)], GET /api/messages/{session_id};
    the result is the list under "messages". *)
Definition list_messages (session_id : pystr) (limit : option Z)
  : World -> (HTTPException + list (gmap pystr Value)) * World :=
  fun w =>
    match get_documents (py "chatmessage") {[py "session_id" := VStr session_id]}
            (default 200%Z limit) w with
    | (inr docs, w') =>
        match stringify_ids docs with
        | inr docs' => (inr docs', w')
        | inl e => (inl {| status_code := 500; detail := caught_str e |}, w')
        end
    | (inl e, w') => (inl {| status_code := 500; detail := caught_str (Raised e) |}, w')
    end.

End Listing.

(** The dict returned by [test_database]. *)
Module DbReport.
Record t := {
  backend : pystr;
  database : pystr;
  database_url : option pystr;
  database_name : option pystr;
  connection_status : pystr;
  collections : list pystr
}.
End DbReport.

(** Truth value of [os.getenv(name)]: set and not empty. *)
Definition env_truthy (v : option pystr) : bool :=
  match v with
  | Some (_ :: _) => true
  | _ => false
  end.

(** [test_database()], GET /test. [db] is [None] or a handle, given by
    what its [list_collection_names()] does; [getenv] is the process
    environment. The outer handler of the source guards statements that
    do not raise. *)
Definition test_database `{ExnText} (db : option (exn + list pystr))
    (getenv : pystr -> option pystr) : DbReport.t :=
  match db with
  | Some list_collection_names =>
      let database_url :=
        if env_truthy (getenv (py "DATABASE_URL")) then py "✅ Set" else py "❌ Not Set" in
      let database_name :=
        if env_truthy (getenv (py "DATABASE_NAME"))
        then default [] (getenv (py "DATABASE_NAME"))
        else py "❌ Not Set" in
      match list_collection_names with
      | inr collections =>
          {| DbReport.backend := py "✅ Running";
             DbReport.database := py "✅ Connected & Working";
             DbReport.database_url := Some database_url;
             DbReport.database_name := Some database_name;
             DbReport.connection_status := py "Connected";
             DbReport.collections := take 10 collections |}
      | inl e =>
          {| DbReport.backend := py "✅ Running";
             DbReport.database := py "⚠️  Connected but Error: " ++ take 50 (exn_str e);
             DbReport.database_url := Some database_url;
             DbReport.database_name := Some database_name;
             DbReport.connection_status := py "Connected";
             DbReport.collections := [] |}
      end
  | None =>
      {| DbReport.backend := py "✅ Running";
         DbReport.database := py "⚠️  Available but not initialized";
         DbReport.database_url := None;
         DbReport.database_name := None;
         DbReport.connection_status := py "Not Connected";
         DbReport.collections := [] |}
  end.

(** ** More vocabulary *)

(** A word as [split] produces them: not empty, no whitespace. *)
Definition is_word (w : pystr) : Prop :=
  w <> [] /\ forallb (fun c => negb (isspace c)) w = true.

(** The calls [chat] sets out to make, given the ids involved. *)
Definition planned_calls `{PyRuntime} `{Database} (req : ChatRequest.t) (w : World)
    (sid : pystr) : list (pystr * Document) :=
  (if falsy (ChatRequest.session_id req)
   then [(py "chatsession", session_doc req (clock w (ticks w)))] else [])
  ++ [ (py "chatmessage",
        message_doc sid User (ChatRequest.message req) (ChatRequest.mode req));
       (py "chatmessage",
        message_doc sid Assistant (reply_of req) (ChatRequest.mode req)) ].

(** A document that has the key "_id". *)
Definition has_id (d : gmap pystr Value) : Prop := is_Some (d !! py "_id").

(** [d'] is [d] with its "_id" replaced by the text [str()] gives for
    it, every other key as it was. *)
Definition id_stringified (d d' : gmap pystr Value) : Prop :=
  exists v, d !! py "_id" = Some v
    /\ d' !! py "_id" = Some (VStr (py_str v))
    /\ forall k, k <> py "_id" -> d' !! k = d !! k.

(** ** Inputs for the checks of the other routes *)

(** A store for the listing routes: the documents it returns, or the
    exception it raises, whatever the query. *)
Module CannedStore.

Definition canned (r : exn + list (gmap pystr Value)) : @DocumentQueries MemStore.database :=
  {| database_find := fun _ _ _ s => (r, s) |}.

Definition text : ExnText := {| exn_str := fun e => py "store: " ++ exc_type e |}.

Definition row (id : pystr) : gmap pystr Value :=
  {[ py "_id" := VObj id; py "title" := VStr (py "Chat – 12:00") ]}.

Definition rows : list (gmap pystr Value) := [row (py "65f0a1"); row (py "65f0a2")].

(** A document that lost its id. *)
Definition bad_rows : list (gmap pystr Value) :=
  [row (py "65f0a1"); {[ py "title" := VStr (py "no id") ]}].

Definition timeout : exn := {| exc_type := py "ServerSelectionTimeoutError" |}.

End CannedStore.

Definition translation_request : ChatRequest.t :=
  {| ChatRequest.message := py "  Good morning "; ChatRequest.session_id := Some (py "s1");
     ChatRequest.mode := Some Translation; ChatRequest.language := None |}.

Definition translation_run :=
  @chat ascii_runtime MemStore.database translation_request MemStore.world.

(** The first request against a store whose message collection is down. *)
Definition failing_run :=
  @chat ascii_runtime FlakyStore.database demo_request (FlakyStore.world [py "chatmessage"]).

Definition styled_image (style : option pystr) : ImageRequest.t :=
  {| ImageRequest.prompt := py "blue flame"; ImageRequest.style := style |}.

(** Eighty letters, then a lone surrogate: the title stops before it. *)
Definition late_surrogate_image : ImageRequest.t :=
  {| ImageRequest.prompt := repeat 97 80 ++ [0xD800]; ImageRequest.style := None |}.

Definition surrogate_image : ImageRequest.t :=
  {| ImageRequest.prompt := [0xD800]; ImageRequest.style := None |}.

Definition blank_image : ImageRequest.t :=
  {| ImageRequest.prompt := py "   "; ImageRequest.style := None |}.

Definition twelve_collections : list pystr :=
  [py "c01"; py "c02"; py "c03"; py "c04"; py "c05"; py "c06";
   py "c07"; py "c08"; py "c09"; py "c10"; py "c11"; py "c12"].

(** An environment with DATABASE_URL set to the empty string. *)
Definition demo_env (name : pystr) : option pystr :=
  if decide (name = py "DATABASE_URL") then Some []
  else if decide (name = py "DATABASE_NAME") then Some (py "shahbaz")
  else None.

(** ** Checks on concrete inputs *)

Example py_hello : py "hello" = [104; 101; 108; 108; 111].
Proof. reflexivity. Qed.

Example py_non_ascii : py "🎉…–‑·" = [0x1F389; 0x2026; 0x2013; 0x2011; 0xB7].
Proof. reflexivity. Qed.

Example py_salam : py "سلام" = [0x633; 0x644; 0x627; 0x645].
Proof. reflexivity. Qed.

Example py_newline : py "a\nb" = [97; 10; 98].
Proof. reflexivity. Qed.

Example strip_ex : strip (py "  a b  ") = py "a b".
Proof. reflexivity. Qed.

Example split_ex : split (py "  a  bc d ") = [py "a"; py "bc"; py "d"].
Proof. reflexivity. Qed.

Example join_ex : join (py " ") [py "a"; py "bc"; py "d"] = py "a bc d".
Proof. reflexivity. Qed.

Example lower_ex : lower (fun s => s) (py "How Are YOU?") = py "how are you?".
Proof. reflexivity. Qed.

Example b64_ex : b64encode (bytes_of_string "Man is") = bytes_of_string "TWFuIGlz".
Proof. reflexivity. Qed.

Example b64_pad1 : b64encode (bytes_of_string "Ma") = bytes_of_string "TWE=".
Proof. reflexivity. Qed.

Example b64_pad2 : b64decode (bytes_of_string "TQ==") = Some (bytes_of_string "M").
Proof. reflexivity. Qed.

Example isoformat_ex :
  DateTime.isoformat (DateTime.Build_t 2024 3 9 7 5 0 1200) = py "2024-03-09T07:05:00.001200".
Proof. reflexivity. Qed.

Example writing_ex :
  @_generate_reply ascii_runtime (py " x y ") (py "writing") (py "en") =
  py "Here is a polished draft based on your request:\n\nTitle: x y\n\nParagraph 1: A clear introduction that frames the goal and context.\n\nParagraph 2: Key insights, structure, and supporting details with a smooth narrative.\n\nParagraph 3: A succinct wrap‑up with next steps and a strong closing.".
Proof. vm_compute. reflexivity. Qed.

Example qa_ex :
  @_generate_reply ascii_runtime (py "why?") (py "student") (py "en") =
  py "Answer: why?\n\nKey points:\n- Direct answer\n- Extra context\n- Practical tip".
Proof. vm_compute. reflexivity. Qed.

Example translation_fallback_ex :
  @_generate_reply ascii_runtime (py "anything else") (py "translation") (py "ur") =
  py "Translation (ur): anything else".
Proof. vm_compute. reflexivity. Qed.

Example summary_41_words :
  @_generate_reply ascii_runtime forty_one_words (py "summary") (py "en") =
  py "Summary: " ++ forty_words ++ py "…".
Proof. vm_compute. reflexivity. Qed.

Example summary_40_words :
  @_generate_reply ascii_runtime forty_words (py "summary") (py "en") =
  py "Summary: " ++ forty_words.
Proof. vm_compute. reflexivity. Qed.

(** The end-to-end scenario: a first request in translation mode. *)
Example chat_demo :
  demo_run.1 = inr demo_response
  /\ fst <$> calls demo_run.2 = [py "chatsession"; py "chatmessage"; py "chatmessage"].
Proof. split; vm_compute; reflexivity. Qed.

(** With the message collection down the call raises after the session
    was created, and no response exists. *)
Example chat_store_down :
  let r := @chat ascii_runtime FlakyStore.database demo_request
             (FlakyStore.world [py "chatmessage"]) in
  r.1 = inl FlakyStore.ServerSelectionTimeoutError
  /\ fst <$> calls r.2 = [py "chatsession"; py "chatmessage"].
Proof. split; vm_compute; reflexivity. Qed.

(** ** Arithmetic on bytes *)

Ltac nlia := zify; Z.to_euclidean_division_equations; lia.

(** Settle every comparison in the goal from the hypotheses. *)
Ltac decide_tests :=
  repeat match goal with
  | |- context [?a <? ?b] =>
      first [ rewrite (proj2 (N.ltb_lt a b)) by nlia
            | rewrite (proj2 (N.ltb_ge a b)) by nlia ]
  | |- context [?a <=? ?b] =>
      first [ rewrite (proj2 (N.leb_le a b)) by nlia
            | rewrite (proj2 (N.leb_gt a b)) by nlia ]
  | |- context [?a =? ?b] =>
      first [ rewrite (proj2 (N.eqb_eq a b)) by nlia
            | rewrite (proj2 (N.eqb_neq a b)) by nlia ]
  end.

Ltac literals_differ := let E := fresh in intros E; vm_compute in E; discriminate.

(** ** UTF-8: decoding inverts encoding *)

Lemma utf8_decode_encode_cp c bs rest :
  utf8_encode_cp c = Some bs ->
  utf8_decode (bs ++ rest) = cons c <$> utf8_decode rest.
Proof.
  unfold utf8_encode_cp.
  destruct (N.ltb_spec c 0x80) as [H1|H1].
  { intros [= <-]. cbn [app utf8_decode]. now decide_tests. }
  destruct (N.ltb_spec c 0x800) as [H2|H2].
  { intros [= <-]. cbn [app utf8_decode]. unfold is_cont.
    replace ((0xC0 + c / 64 - 0xC0) * 64 + (0x80 + c mod 64 - 0x80)) with c by nlia.
    decide_tests. reflexivity. }
  destruct (N.ltb_spec c 0x10000) as [H3|H3].
  { destruct ((0xD800 <=? c) && (c <? 0xE000)) eqn:Hs; [discriminate|].
    intros [= <-]. cbn [app utf8_decode]. unfold is_cont.
    replace ((0xE0 + c / 4096 - 0xE0) * 4096 + (0x80 + (c / 64) mod 64 - 0x80) * 64
             + (0x80 + c mod 64 - 0x80)) with c by nlia.
    rewrite Hs.
    decide_tests. reflexivity. }
  destruct (N.ltb_spec c 0x110000) as [H4|H4]; [|discriminate].
  intros [= <-]. cbn [app utf8_decode]. unfold is_cont.
  replace ((0xF0 + c / 262144 - 0xF0) * 262144 + (0x80 + (c / 4096) mod 64 - 0x80) * 4096
           + (0x80 + (c / 64) mod 64 - 0x80) * 64 + (0x80 + c mod 64 - 0x80)) with c by nlia.
  decide_tests. reflexivity.
Qed.

Lemma utf8_decode_encode s bs : utf8_encode s = Some bs -> utf8_decode bs = Some s.
Proof.
  revert bs. induction s as [|c s IH]; intros bs; cbn [utf8_encode].
  - now intros [= <-].
  - destruct (utf8_encode_cp c) as [b|] eqn:Hc; [|discriminate].
    destruct (utf8_encode s) as [r|]; [|discriminate].
    intros [= <-]. rewrite (utf8_decode_encode_cp _ _ _ Hc), (IH r eq_refl). reflexivity.
Qed.

Lemma utf8_encode_cp_scalar c : is_scalar c = true -> is_Some (utf8_encode_cp c).
Proof.
  unfold is_scalar, utf8_encode_cp. intros [Hlt Hs%negb_true_iff]%andb_true_iff.
  rewrite Hlt, Hs. repeat case_match; eauto.
Qed.

Lemma utf8_encode_well_formed s : well_formed s -> is_Some (utf8_encode s).
Proof.
  induction 1 as [|c s Hc _ IH]; cbn [utf8_encode]; [eauto|].
  destruct (utf8_encode_cp_scalar c Hc) as [b ->]. destruct IH as [r ->]. eauto.
Qed.

Lemma utf8_encode_cp_bytes c bs : utf8_encode_cp c = Some bs -> Forall (fun b => b < 256) bs.
Proof.
  unfold utf8_encode_cp.
  destruct (N.ltb_spec c 0x80); [intros [= <-]; repeat constructor; nlia|].
  destruct (N.ltb_spec c 0x800); [intros [= <-]; repeat constructor; nlia|].
  destruct (N.ltb_spec c 0x10000).
  { destruct (_ && _); [discriminate|]. intros [= <-]; repeat constructor; nlia. }
  destruct (N.ltb_spec c 0x110000); [|discriminate].
  intros [= <-]; repeat constructor; nlia.
Qed.

Lemma utf8_encode_bytes s bs : utf8_encode s = Some bs -> Forall (fun b => b < 256) bs.
Proof.
  revert bs. induction s as [|c s IH]; intros bs; cbn [utf8_encode].
  - intros [= <-]. constructor.
  - destruct (utf8_encode_cp c) as [b|] eqn:Hc; [|discriminate].
    destruct (utf8_encode s) as [r|]; [|discriminate].
    intros [= <-]. apply Forall_app. split; [eapply utf8_encode_cp_bytes|]; eauto.
Qed.

Lemma utf8_decode_ascii bs : Forall (fun b => b < 128) bs -> utf8_decode bs = Some bs.
Proof.
  induction 1 as [|b bs Hb _ IH]; [reflexivity|].
  cbn [utf8_decode]. rewrite (proj2 (N.ltb_lt b 0x80)) by lia. now rewrite IH.
Qed.

(** ** Base64: decoding inverts encoding *)

Lemma b64val_char n : n < 64 -> b64val (b64char n) = Some n.
Proof.
  intros Hn. unfold b64char.
  destruct (N.ltb_spec n 26); [unfold b64val; decide_tests; cbn [andb]; f_equal; lia|].
  destruct (N.ltb_spec n 52); [unfold b64val; decide_tests; cbn [andb]; f_equal; lia|].
  destruct (N.ltb_spec n 62); [unfold b64val; decide_tests; cbn [andb]; f_equal; lia|].
  destruct (N.eqb_spec n 62) as [->|]; [reflexivity|].
  replace n with 63 by lia. reflexivity.
Qed.

Lemma b64char_not_pad n : (b64char n =? pad) = false.
Proof.
  unfold b64char, pad. apply N.eqb_neq.
  repeat match goal with |- context [if ?b then _ else _] => destruct b eqn:? end;
    rewrite ?N.ltb_lt, ?N.ltb_ge in *; lia.
Qed.

Lemma b64char_ascii n : b64char n < 128.
Proof.
  unfold b64char.
  repeat match goal with |- context [if ?b then _ else _] => destruct b eqn:? end;
    rewrite ?N.ltb_lt, ?N.ltb_ge in *; lia.
Qed.

Lemma b64decode_encode_len n : forall bs,
  (length bs <= n)%nat -> Forall (fun b => b < 256) bs ->
  b64decode (b64encode bs) = Some bs.
Proof.
  induction n as [|n IH]; intros bs Hlen Hb.
  { destruct bs; [reflexivity | cbn in Hlen; lia]. }
  destruct bs as [|a [|b [|c r]]]; [reflexivity|..].
  - apply Forall_cons in Hb as [Ha _].
    cbn [b64encode b64decode].
    rewrite !b64val_char by nlia. rewrite !N.eqb_refl. cbn [andb].
    decide_tests. do 2 f_equal. nlia.
  - apply Forall_cons in Hb as [Ha [Hb' _]%Forall_cons].
    cbn [b64encode b64decode].
    rewrite !b64val_char by nlia. rewrite b64char_not_pad, N.eqb_refl. cbn [andb].
    decide_tests. f_equal. f_equal; [nlia|]. f_equal. nlia.
  - apply Forall_cons in Hb as [Ha [Hb' [Hc Hr]%Forall_cons]%Forall_cons].
    cbn [b64encode b64decode].
    rewrite !b64val_char by nlia. rewrite !b64char_not_pad. cbn [andb].
    rewrite IH by (cbn in Hlen; auto with lia).
    f_equal. f_equal; [nlia|]. f_equal; [nlia|]. f_equal. nlia.
Qed.

Lemma b64decode_encode bs :
  Forall (fun b => b < 256) bs -> b64decode (b64encode bs) = Some bs.
Proof. apply (b64decode_encode_len (length bs)). lia. Qed.

Lemma b64encode_ascii_len n : forall bs,
  (length bs <= n)%nat -> Forall (fun b => b < 128) (b64encode bs).
Proof.
  induction n as [|n IH]; intros bs Hlen.
  { destruct bs; [constructor | cbn in Hlen; lia]. }
  destruct bs as [|a [|b [|c r]]]; cbn [b64encode];
    repeat (apply Forall_cons; split);
    try apply b64char_ascii; try (unfold pad; lia); try constructor.
  apply IH. cbn in Hlen. lia.
Qed.

Lemma b64encode_ascii bs : Forall (fun b => b < 128) (b64encode bs).
Proof. apply (b64encode_ascii_len (length bs)). lia. Qed.

(** ** [strip] and [split] *)

Lemma lstrip_prefix s : exists ws, s = ws ++ lstrip s /\ forallb isspace ws = true.
Proof.
  induction s as [|c s (ws & Hs & Hws)]; [by exists []|].
  cbn [lstrip]. destruct (isspace c) eqn:Hc.
  - exists (c :: ws). cbn. rewrite Hc, Hws. split; [congruence|done].
  - by exists [].
Qed.

Lemma rstrip_suffix s : exists ws, s = rstrip s ++ ws /\ forallb isspace ws = true.
Proof.
  destruct (lstrip_prefix (rev s)) as (ws & Hs & Hws). exists (rev ws). split.
  - unfold rstrip. rewrite <- rev_app_distr, <- Hs. by rewrite rev_involutive.
  - rewrite forallb_forall in *. intros x Hx. apply Hws. by apply in_rev.
Qed.

Lemma split_from_lstrip s : split_from [] (lstrip s) = split_from [] s.
Proof.
  induction s as [|c s IH]; [done|]. cbn [lstrip split_from].
  destruct (isspace c) eqn:Hc; [done|]. cbn [split_from]. by rewrite Hc.
Qed.

Lemma split_from_spaces cur ws :
  forallb isspace ws = true ->
  split_from cur ws = match cur with [] => [] | _ => [rev cur] end.
Proof.
  revert cur. induction ws as [|c ws IH]; intros cur Hws; [done|].
  cbn in Hws. apply andb_true_iff in Hws as [Hc Hws].
  cbn [split_from]. rewrite Hc. rewrite (IH [] Hws). by destruct cur.
Qed.

Lemma split_from_app_spaces s : forall cur ws,
  forallb isspace ws = true -> split_from cur (s ++ ws) = split_from cur s.
Proof.
  induction s as [|c s IH]; intros cur ws Hws.
  - cbn [app]. by rewrite split_from_spaces.
  - cbn [app split_from]. destruct (isspace c); rewrite !IH; done.
Qed.

Lemma split_strip s : split (strip s) = split s.
Proof.
  unfold split, strip.
  destruct (rstrip_suffix (lstrip s)) as (ws & Hs & Hws).
  rewrite <- (split_from_lstrip s). rewrite Hs at 2.
  by rewrite split_from_app_spaces.
Qed.

Lemma well_formed_lstrip s : well_formed s -> well_formed (lstrip s).
Proof.
  intros Hs. destruct (lstrip_prefix s) as (ws & Heq & _).
  unfold well_formed in *. rewrite Heq in Hs. by apply Forall_app in Hs as [_ ?].
Qed.

Lemma well_formed_strip s : well_formed s -> well_formed (strip s).
Proof.
  intros Hs. unfold strip, rstrip, well_formed.
  apply Forall_rev, well_formed_lstrip, Forall_rev. by apply well_formed_lstrip.
Qed.
(** ** The reply helpers *)

Section HelperFacts.
Context `{PyRuntime}.

Lemma translations_lookup key :
  translations !! key =
    if decide (py "hello" = key) then
      Some (list_to_map [(py "ur", py "سلام"); (py "hi", py "नमस्ते")])
    else if decide (py "how are you" = key) then
      Some (list_to_map [(py "ur", py "آپ کیسے ہیں"); (py "hi", py "आप कैसे हैं")])
    else None.
Proof.
  unfold translations. cbn [list_to_map foldr fst snd].
  rewrite !lookup_insert, lookup_empty. reflexivity.
Qed.

Lemma translation_reply prompt language :
  _generate_reply prompt (py "translation") language =
    py "Translation (" ++ language ++ py "): " ++
    match translations !! lower unicode_lower (strip prompt) with
    | Some entry => default (strip prompt) (entry !! language)
    | None => strip prompt
    end.
Proof.
  unfold _generate_reply. rewrite decide_True by reflexivity.
  destruct (translations !! _) as [entry|]; [|reflexivity].
  destruct (entry !! language); reflexivity.
Qed.

Lemma translations_keys k :
  is_Some (translations !! k) <-> k = py "hello" \/ k = py "how are you".
Proof.
  rewrite translations_lookup. split.
  - repeat case_decide; intros [? ?]; auto; discriminate.
  - intros [-> | ->]; vm_compute; eauto.
Qed.

Lemma translations_languages k entry l :
  translations !! k = Some entry ->
  is_Some (entry !! l) <-> l = py "ur" \/ l = py "hi".
Proof.
  rewrite translations_lookup.
  repeat case_decide; intros [= <-]; cbn [list_to_map foldr fst snd];
    rewrite !lookup_insert, lookup_empty; (split;
    [ repeat case_decide; intros [? ?]; auto; discriminate
    | intros [-> | ->]; vm_compute; eauto ]).
Qed.

(** C3: in translation mode the trimmed prompt is lower-cased and looked
    up in the two-entry dictionary (keys "hello" and "how are you", each
    with entries for ur and hi). When the key has an entry for the
    language the reply is "Translation (<language>): <looked-up text>";
    when the key is missing, or has no entry for the language, it is
    "Translation (<language>): <trimmed prompt>". The lookup ignores
    case: "hello" in ur and "HELLO" in hi give the listed replies. *)
Theorem translation_mode (prompt language : pystr) :
  let base := strip prompt in
  let key := lower unicode_lower base in
  let reply := _generate_reply prompt (py "translation") language in
  (forall entry text,
      translations !! key = Some entry -> entry !! language = Some text ->
      reply = py "Translation (" ++ language ++ py "): " ++ text)
  /\ (translations !! key = None \/
      (exists entry, translations !! key = Some entry /\ entry !! language = None) ->
      reply = py "Translation (" ++ language ++ py "): " ++ base)
  /\ (forall k, is_Some (translations !! k) <-> k = py "hello" \/ k = py "how are you")
  /\ (forall k entry l, translations !! k = Some entry ->
        is_Some (entry !! l) <-> l = py "ur" \/ l = py "hi")
  /\ _generate_reply (py "hello") (py "translation") (py "ur") = py "Translation (ur): سلام"
  /\ _generate_reply (py "HELLO") (py "translation") (py "hi") = py "Translation (hi): नमस्ते"
  /\ _generate_reply (py "How are you") (py "translation") (py "ur")
     = py "Translation (ur): آپ کیسے ہیں"
  /\ _generate_reply (py " how are YOU ") (py "translation") (py "hi")
     = py "Translation (hi): आप कैसे हैं".
Proof.
  intros base key reply. subst reply. rewrite translation_reply. fold base. fold key.
  split; [|split; [|split; [|split; [|split; [|split; [|split]]]]]].
  - intros entry text He Hl. rewrite He. cbv beta iota. rewrite Hl. reflexivity.
  - intros [He | (entry & He & Hl)]; rewrite He; cbv beta iota; rewrite ?Hl; reflexivity.
  - apply translations_keys.
  - apply translations_languages.
  - vm_compute. reflexivity.
  - vm_compute. reflexivity.
  - vm_compute. reflexivity.
  - vm_compute. reflexivity.
Qed.

Lemma tone_wrap_other text mode :
  mode <> py "student" -> mode <> py "professional" -> mode <> py "fun" ->
  _tone_wrap text mode = text.
Proof. intros. unfold _tone_wrap. by rewrite !decide_False. Qed.

(** C4, amended: for every mode other than student, professional and
    fun the tone wrapper returns its input, so wrapping a generated reply
    changes nothing; student and professional put a fixed header and
    three bullet lines before the unchanged text; fun puts the header
    line "Fun Mode 🎉:" before the unchanged text and a fixed sign-off
    line after it. *)
Theorem tone_wrap_cases (text x mode lang : pystr) :
  (mode <> py "student" -> mode <> py "professional" -> mode <> py "fun" ->
   _tone_wrap text mode = text
   /\ _tone_wrap (_generate_reply x mode lang) mode = _generate_reply x mode lang)
  /\ _tone_wrap text (py "student") =
       py "Student Mode:\n- Simple explanation\n- Key points\n- Short example\n\n" ++ text
  /\ _tone_wrap text (py "professional") =
       py "Professional Mode:\n- Concise\n- Actionable\n- Business tone\n\n" ++ text
  /\ _tone_wrap text (py "fun") =
       py "Fun Mode 🎉:\n" ++ text ++ py "\n(peppered with a friendly, upbeat vibe)".
Proof.
  split; [|split; [|split]].
  - intros. split; by apply tone_wrap_other.
  - reflexivity.
  - reflexivity.
  - reflexivity.
Qed.

(** C5, amended: in summary mode the prompt is split into
    whitespace-delimited words. With more than 40 words the reply is
    "Summary: " followed by the first 40 words, joined by single spaces,
    and the ellipsis character; with at most 40 words it is "Summary: "
    followed by the prompt trimmed of surrounding whitespace, so the
    prompt unchanged when it has none. *)
Theorem summary_mode (prompt language : pystr) :
  let words := split prompt in
  let reply := _generate_reply prompt (py "summary") language in
  ((40 < length words)%nat ->
   reply = py "Summary: " ++ join (py " ") (take 40 words) ++ py "…")
  /\ ((length words <= 40)%nat ->
      reply = py "Summary: " ++ strip prompt
      /\ (strip prompt = prompt -> reply = py "Summary: " ++ prompt)).
Proof.
  intros words reply. subst reply words. unfold _generate_reply.
  rewrite decide_False by (intros E; vm_compute in E; discriminate).
  rewrite decide_True by reflexivity.
  rewrite split_strip. split; intros Hlen.
  - by rewrite (proj2 (Nat.ltb_lt _ _) Hlen).
  - rewrite (proj2 (Nat.ltb_ge _ _) Hlen). split; [done|]. by intros ->.
Qed.

Lemma bank_lookup key :
  bank !! key =
    if decide (py "qa" = key) then
      Some [py "Explain in simple terms"; py "Give key takeaways"; py "Add examples"]
    else if decide (py "writing" = key) then
      Some [py "Draft an outline"; py "Expand to 1000 words"; py "Refine tone"]
    else if decide (py "translation" = key) then
      Some [py "Detect language"; py "Back-translate"; py "Transliterate"]
    else if decide (py "summary" = key) then
      Some [py "Bullet summary"; py "TL;DR"; py "Action items"]
    else if decide (py "student" = key) then
      Some [py "Create study notes"; py "Make quiz questions"; py "Explain like I'm 12"]
    else if decide (py "professional" = key) then
      Some [py "Make an executive summary"; py "Draft an email"; py "Create a plan"]
    else if decide (py "fun" = key) then
      Some [py "Tell a pun"; py "Make it playful"; py "Add emojis"]
    else None.
Proof.
  unfold bank. cbn [list_to_map foldr fst snd].
  rewrite !lookup_insert, lookup_empty. reflexivity.
Qed.

Lemma bank_keys key : is_Some (bank !! key) <-> exists m, key = Mode_str m.
Proof.
  rewrite bank_lookup. split.
  - repeat case_decide; intros [? ?]; try discriminate;
      [ exists Qa | exists Writing | exists Translation | exists Summary
      | exists Student | exists Professional | exists Fun ]; by subst.
  - intros [[] ->]; vm_compute; eauto.
Qed.

Lemma suggestions_at_most_3 mode : (length (_smart_suggestions mode) <= 3)%nat.
Proof. unfold _smart_suggestions. rewrite length_take. lia. Qed.

(** C6: the suggestion bank returns at most 3 strings for every mode;
    for each of the 7 enum modes it returns that mode's table entry, 3
    strings in table order; the table has no other keys; and for a mode
    that is missing or not a key of the table it returns the qa entry,
    as for "unknown". *)
Theorem suggestion_bank :
  (forall mode, (length (_smart_suggestions mode) <= 3)%nat)
  /\ (forall m : Mode,
        bank !! Mode_str m = Some (_smart_suggestions (Some (Mode_str m)))
        /\ length (_smart_suggestions (Some (Mode_str m))) = 3%nat)
  /\ (forall key, is_Some (bank !! key) <-> exists m, key = Mode_str m)
  /\ (forall mode,
        mode = None \/ (exists s, mode = Some s /\ bank !! s = None) ->
        _smart_suggestions mode = _smart_suggestions (Some (py "qa"))
        /\ bank !! py "qa" = Some (_smart_suggestions mode))
  /\ _smart_suggestions (Some (py "unknown")) = _smart_suggestions (Some (py "qa")).
Proof.
  split; [|split; [|split; [|split]]].
  - apply suggestions_at_most_3.
  - intros []; vm_compute; done.
  - apply bank_keys.
  - intros mode [-> | (s & -> & Hs)].
    + vm_compute; done.
    + assert (Hd : _smart_suggestions (Some s) = _smart_suggestions (Some (py "qa"))).
      { unfold _smart_suggestions. destruct s as [|c s]; [done|].
        cbn [or_qa]. rewrite Hs. vm_compute. done. }
      rewrite Hd. vm_compute; done.
  - vm_compute. reflexivity.
Qed.

End HelperFacts.

Lemma translation_mode_witness :
  let entry : gmap pystr pystr := list_to_map [(py "ur", py "سلام"); (py "hi", py "नमस्ते")] in
  translations !! lower (@unicode_lower ascii_runtime) (strip (py "HELLO")) = Some entry
  /\ entry !! py "hi" = Some (py "नमस्ते")
  /\ @_generate_reply ascii_runtime (py "HELLO") (py "translation") (py "hi")
     = py "Translation (" ++ py "hi" ++ py "): " ++ py "नमस्ते".
Proof.
  intros entry.
  assert (He : translations !! lower (@unicode_lower ascii_runtime) (strip (py "HELLO"))
               = Some entry) by (vm_compute; reflexivity).
  assert (Hl : entry !! py "hi" = Some (py "नमस्ते")) by (vm_compute; reflexivity).
  split; [exact He|]. split; [exact Hl|].
  exact (proj1 (@translation_mode ascii_runtime (py "HELLO") (py "hi")) entry _ He Hl).
Defined.

(** C4 as stated fails for fun: the wrapped text does not start with
    the input, so it is not the input followed by a sign-off. *)
Lemma tone_wrap_fun_not_append_only :
  ~ exists signoff, _tone_wrap (py "hi") (py "fun") = py "hi" ++ signoff.
Proof. intros [signoff E]. vm_compute in E. discriminate. Qed.

Lemma tone_wrap_cases_witness :
  py "qa" <> py "student" /\ py "qa" <> py "professional" /\ py "qa" <> py "fun"
  /\ _tone_wrap (py "Answer: x") (py "qa") = py "Answer: x"
  /\ _tone_wrap (@_generate_reply ascii_runtime (py "x") (py "qa") (py "en")) (py "qa")
     = @_generate_reply ascii_runtime (py "x") (py "qa") (py "en").
Proof.
  assert (H1 : py "qa" <> py "student") by literals_differ.
  assert (H2 : py "qa" <> py "professional") by literals_differ.
  assert (H3 : py "qa" <> py "fun") by literals_differ.
  split; [exact H1|]. split; [exact H2|]. split; [exact H3|].
  exact (proj1 (@tone_wrap_cases ascii_runtime (py "Answer: x") (py "x") (py "qa") (py "en"))
           H1 H2 H3).
Defined.

(** C5 as stated fails on a short prompt with surrounding whitespace:
    the reply carries the trimmed prompt, not the prompt as received. *)
Lemma summary_trims_short_prompt :
  (length (split (py "  hi  ")) <= 40)%nat
  /\ @_generate_reply ascii_runtime (py "  hi  ") (py "summary") (py "en")
     = py "Summary: hi"
  /\ @_generate_reply ascii_runtime (py "  hi  ") (py "summary") (py "en")
     <> py "Summary: " ++ py "  hi  ".
Proof.
  split; [apply Nat.leb_le; vm_compute; reflexivity|].
  split; [vm_compute; reflexivity|].
  intros E. vm_compute in E. discriminate E.
Qed.

Lemma summary_mode_witness :
  (40 < length (split forty_one_words))%nat
  /\ @_generate_reply ascii_runtime forty_one_words (py "summary") (py "en")
     = py "Summary: " ++ join (py " ") (take 40 (split forty_one_words)) ++ py "…".
Proof.
  assert (Hlen : (40 < length (split forty_one_words))%nat)
    by (apply Nat.ltb_lt; vm_compute; reflexivity).
  split; [exact Hlen|].
  exact (proj1 (@summary_mode ascii_runtime forty_one_words (py "en")) Hlen).
Defined.

Lemma suggestion_bank_witness :
  bank !! py "unknown" = None
  /\ _smart_suggestions (Some (py "unknown")) = _smart_suggestions (Some (py "qa")).
Proof.
  assert (Hk : bank !! py "unknown" = None) by (vm_compute; reflexivity).
  split; [exact Hk|].
  exact (proj1 (proj1 (proj2 (proj2 (proj2 suggestion_bank))) (Some (py "unknown"))
                  (or_intror (ex_intro _ (py "unknown") (conj eq_refl Hk))))).
Defined.


(** ** The call log *)

Lemma inserts_into_cons_eq c d l :
  inserts_into c ((c, d) :: l) = d :: inserts_into c l.
Proof. unfold inserts_into. rewrite filter_cons_True; [reflexivity | done]. Qed.

Lemma inserts_into_cons_ne c c' d l :
  c' <> c -> inserts_into c ((c', d) :: l) = inserts_into c l.
Proof. intros Hne. unfold inserts_into. rewrite filter_cons_False; [reflexivity | done]. Qed.

(** Sort a concrete call list by collection. *)
Ltac sort_inserts :=
  repeat first [ rewrite inserts_into_cons_eq
               | rewrite inserts_into_cons_ne by literals_differ ].

Lemma inserts_into_chat_messages (a b : Document) :
  inserts_into (py "chatmessage") [(py "chatmessage", a); (py "chatmessage", b)] = [a; b]
  /\ inserts_into (py "chatsession") [(py "chatmessage", a); (py "chatmessage", b)] = [].
Proof. split; sort_inserts; reflexivity. Qed.

Lemma inserts_into_chat_session (s a b : Document) :
  inserts_into (py "chatmessage")
    [(py "chatsession", s); (py "chatmessage", a); (py "chatmessage", b)] = [a; b]
  /\ inserts_into (py "chatsession")
    [(py "chatsession", s); (py "chatmessage", a); (py "chatmessage", b)] = [s].
Proof. split; sort_inserts; reflexivity. Qed.

(** ** The chat handler *)

(** One [create_document] call of a handler whose run returned: the
    call did not raise. *)
Ltac insert_step :=
  cbn [store clock ticks calls];
  match goal with
  | |- context [database_insert ?c ?d ?s] =>
      let e := fresh "e" in let i := fresh "id" in
      let s' := fresh "s" in let E := fresh "Hins" in
      destruct (database_insert c d s) as [[e|i] s'] eqn:E; [discriminate|]
  end;
  cbn [store clock ticks calls].

Section ChatFacts.
Context `{PyRuntime} `{Database}.

Lemma new_calls_app (w w' : World) l : calls w' = calls w ++ l -> new_calls w w' = l.
Proof. unfold new_calls. intros ->. by rewrite drop_app_length. Qed.

(** What a returned response says about the run that produced it. *)
Lemma chat_returns_inv req w resp w' :
  chat req w = (inr resp, w') ->
  let sid := ChatResponse.session_id resp in
  let messages :=
    [ (py "chatmessage", message_doc sid User (ChatRequest.message req) (ChatRequest.mode req));
      (py "chatmessage", message_doc sid Assistant (reply_of req) (ChatRequest.mode req)) ] in
  ChatResponse.reply resp = reply_of req
  /\ ChatResponse.suggestions resp =
       _smart_suggestions (Some (Mode_str (mode_or_qa (ChatRequest.mode req))))
  /\ ChatResponse.mode resp = Mode_str (mode_or_qa (ChatRequest.mode req))
  /\ (if falsy (ChatRequest.session_id req) then
        (database_insert (py "chatsession") (session_doc req (clock w (ticks w))) (store w)).1
          = inr sid
        /\ calls w' =
             calls w ++ (py "chatsession", session_doc req (clock w (ticks w))) :: messages
      else
        ChatRequest.session_id req = Some sid /\ calls w' = calls w ++ messages).
Proof.
  unfold chat, bind, create_document, utcnow, ret, reply_of, session_doc, message_doc.
  destruct (falsy (ChatRequest.session_id req)) eqn:Hf.
  - insert_step. insert_step. insert_step.
    intros [= <- <-].
    cbn [ChatResponse.session_id ChatResponse.reply ChatResponse.suggestions
         ChatResponse.mode fst].
    rewrite <- !app_assoc. auto.
  - destruct (ChatRequest.session_id req) as [[|c sid]|] eqn:Hs; try discriminate.
    insert_step. insert_step.
    intros [= <- <-].
    cbn [ChatResponse.session_id ChatResponse.reply ChatResponse.suggestions
         ChatResponse.mode fst default].
    rewrite <- !app_assoc. auto.
Qed.

(** While the store takes every insert, [chat] returns a response. *)
Lemma chat_returns req w :
  store_available -> exists resp w', chat req w = (inr resp, w').
Proof.
  intros Hup. unfold chat, bind, create_document, utcnow, ret.
  destruct (falsy (ChatRequest.session_id req));
    repeat (cbn [store clock ticks calls];
            match goal with |- context [database_insert ?c ?d ?s] =>
              destruct (Hup c d s) as (? & ? & ->) end);
    eauto.
Qed.

Lemma chat_messages_logged req w resp w' :
  chat req w = (inr resp, w') ->
  inserts_into (py "chatmessage") (new_calls w w') =
    [ message_doc (ChatResponse.session_id resp) User
        (ChatRequest.message req) (ChatRequest.mode req);
      message_doc (ChatResponse.session_id resp) Assistant
        (reply_of req) (ChatRequest.mode req) ].
Proof.
  intros Hrun. destruct (chat_returns_inv _ _ _ _ Hrun) as (_ & _ & _ & Hs).
  destruct (falsy (ChatRequest.session_id req)); destruct Hs as [_ Hcalls];
    rewrite (new_calls_app _ _ _ Hcalls).
  - apply inserts_into_chat_session.
  - apply inserts_into_chat_messages.
Qed.

(** C1: a chat call with an absent or empty session_id makes exactly
    one insert into chatsession and returns the id the store assigned to
    it as session_id; a call with a non-empty session_id makes no
    chatsession insert and returns the same id. A response is returned
    whenever the store takes the inserts. *)
Theorem chat_session_insert req w :
  (store_available -> exists resp w', chat req w = (inr resp, w'))
  /\ forall resp w',
      chat req w = (inr resp, w') ->
      (falsy (ChatRequest.session_id req) = true ->
       inserts_into (py "chatsession") (new_calls w w')
         = [session_doc req (clock w (ticks w))]
       /\ (database_insert (py "chatsession") (session_doc req (clock w (ticks w)))
            (store w)).1
          = inr (ChatResponse.session_id resp))
      /\ (forall sid, ChatRequest.session_id req = Some sid -> sid <> [] ->
          inserts_into (py "chatsession") (new_calls w w') = []
          /\ ChatResponse.session_id resp = sid).
Proof.
  split; [apply chat_returns|].
  intros resp w' Hrun. destruct (chat_returns_inv _ _ _ _ Hrun) as (_ & _ & _ & Hs).
  split.
  - intros Hf. rewrite Hf in Hs. destruct Hs as [Hid Hcalls].
    rewrite (new_calls_app _ _ _ Hcalls).
    split; [apply inserts_into_chat_session | exact Hid].
  - intros sid Hsid Hne. rewrite Hsid in Hs.
    destruct sid as [|c sid]; [done|]. cbn [falsy] in Hs. destruct Hs as [[= <-] Hcalls].
    rewrite (new_calls_app _ _ _ Hcalls).
    split; [apply inserts_into_chat_messages | reflexivity].
Qed.

(** C2: a chat call makes exactly two inserts into chatmessage, in this
    order: the user message with the raw inbound text, then the
    assistant message whose content is the reply returned to the caller,
    which is the tone-wrapped generator output; both carry the session
    id of the response. A response is returned whenever the store takes
    the inserts. *)
Theorem chat_message_inserts req w :
  (store_available -> exists resp w', chat req w = (inr resp, w'))
  /\ forall resp w',
      chat req w = (inr resp, w') ->
      inserts_into (py "chatmessage") (new_calls w w') =
        [ message_doc (ChatResponse.session_id resp) User
            (ChatRequest.message req) (ChatRequest.mode req);
          message_doc (ChatResponse.session_id resp) Assistant
            (ChatResponse.reply resp) (ChatRequest.mode req) ]
      /\ ChatResponse.reply resp =
           _tone_wrap
             (_generate_reply (ChatRequest.message req)
                (Mode_str (mode_or_qa (ChatRequest.mode req)))
                (Language_str (language_or_en (ChatRequest.language req))))
             (Mode_str (mode_or_qa (ChatRequest.mode req))).
Proof.
  split; [apply chat_returns|].
  intros resp w' Hrun. destruct (chat_returns_inv _ _ _ _ Hrun) as (Hr & _).
  split; [|exact Hr]. rewrite Hr. by apply chat_messages_logged.
Qed.

(** C9: when the request carries mode = null, the reply, the
    suggestions and the echoed mode are those of mode "qa" (and equal
    those of the same request sent with mode "qa"), while the two stored
    chatmessage records carry mode = null. *)
Theorem chat_null_mode req w resp w' :
  ChatRequest.mode req = None ->
  chat req w = (inr resp, w') ->
  ChatResponse.reply resp =
    _tone_wrap
      (_generate_reply (ChatRequest.message req) (py "qa")
         (Language_str (language_or_en (ChatRequest.language req)))) (py "qa")
  /\ ChatResponse.suggestions resp = _smart_suggestions (Some (py "qa"))
  /\ ChatResponse.mode resp = py "qa"
  /\ inserts_into (py "chatmessage") (new_calls w w') =
       [ message_doc (ChatResponse.session_id resp) User (ChatRequest.message req) None;
         message_doc (ChatResponse.session_id resp) Assistant (ChatResponse.reply resp) None ]
  /\ (forall req_qa w2 resp2 w2',
        ChatRequest.message req_qa = ChatRequest.message req ->
        ChatRequest.language req_qa = ChatRequest.language req ->
        ChatRequest.mode req_qa = Some Qa ->
        chat req_qa w2 = (inr resp2, w2') ->
        ChatResponse.reply resp2 = ChatResponse.reply resp
        /\ ChatResponse.suggestions resp2 = ChatResponse.suggestions resp
        /\ ChatResponse.mode resp2 = ChatResponse.mode resp).
Proof.
  intros Hmode Hrun.
  pose proof (chat_messages_logged _ _ _ _ Hrun) as Hins.
  destruct (chat_returns_inv _ _ _ _ Hrun) as (Hr & Hsug & Hm & _).
  rewrite <- Hr, Hmode in Hins. unfold reply_of in Hr. rewrite Hmode in Hr, Hsug, Hm.
  change (Mode_str (mode_or_qa None)) with (py "qa") in Hr, Hsug, Hm.
  split; [exact Hr|]. split; [exact Hsug|]. split; [exact Hm|]. split; [exact Hins|].
  intros req_qa w2 resp2 w2' Hmsg Hlang Hqa Hrun2.
  destruct (chat_returns_inv _ _ _ _ Hrun2) as (Hr2 & Hsug2 & Hm2 & _).
  unfold reply_of in Hr2. rewrite Hqa, Hmsg, Hlang in Hr2. rewrite Hqa in Hsug2, Hm2.
  change (Mode_str (mode_or_qa (Some Qa))) with (py "qa") in Hr2, Hsug2, Hm2.
  rewrite Hr, Hsug, Hm, Hr2, Hsug2, Hm2. auto.
Qed.

(** C10: reply generation is deterministic. Equal arguments give equal
    results for [_generate_reply], [_tone_wrap] and [_smart_suggestions],
    and two chat calls with the same message, mode and language return
    the same reply, suggestions and mode whatever the store, the clock
    and the earlier calls are. *)
Theorem reply_deterministic :
  (forall p1 m1 l1 p2 m2 l2, p1 = p2 -> m1 = m2 -> l1 = l2 ->
     _generate_reply p1 m1 l1 = _generate_reply p2 m2 l2)
  /\ (forall t1 m1 t2 m2, t1 = t2 -> m1 = m2 -> _tone_wrap t1 m1 = _tone_wrap t2 m2)
  /\ (forall m1 m2, m1 = m2 -> _smart_suggestions m1 = _smart_suggestions m2)
  /\ (forall req1 req2 w1 w2 resp1 resp2 w1' w2',
        ChatRequest.message req1 = ChatRequest.message req2 ->
        mode_or_qa (ChatRequest.mode req1) = mode_or_qa (ChatRequest.mode req2) ->
        language_or_en (ChatRequest.language req1)
          = language_or_en (ChatRequest.language req2) ->
        chat req1 w1 = (inr resp1, w1') ->
        chat req2 w2 = (inr resp2, w2') ->
        ChatResponse.reply resp1 = ChatResponse.reply resp2
        /\ ChatResponse.suggestions resp1 = ChatResponse.suggestions resp2
        /\ ChatResponse.mode resp1 = ChatResponse.mode resp2).
Proof.
  split; [|split; [|split]]; try (intros; congruence).
  intros req1 req2 w1 w2 resp1 resp2 w1' w2' Hmsg Hmode Hlang Hrun1 Hrun2.
  destruct (chat_returns_inv _ _ _ _ Hrun1) as (Hr1 & Hsug1 & Hm1 & _).
  destruct (chat_returns_inv _ _ _ _ Hrun2) as (Hr2 & Hsug2 & Hm2 & _).
  unfold reply_of in Hr1, Hr2.
  rewrite Hr1, Hr2, Hsug1, Hsug2, Hm1, Hm2, Hmsg, Hmode, Hlang. auto.
Qed.

End ChatFacts.

Lemma memstore_available : @store_available MemStore.database.
Proof. intros c d s. eexists _, _. reflexivity. Qed.

Lemma demo_run_eq : demo_run = (inr demo_response, demo_run.2).
Proof. vm_compute. reflexivity. Qed.

Lemma followup_run_eq : followup_run = (inr followup_response, followup_run.2).
Proof. vm_compute. reflexivity. Qed.

Lemma null_mode_run_eq : null_mode_run = (inr null_mode_response, null_mode_run.2).
Proof. vm_compute. reflexivity. Qed.

Lemma qa_mode_run_eq : qa_mode_run = (inr qa_mode_response, qa_mode_run.2).
Proof. vm_compute. reflexivity. Qed.

Lemma chat_session_insert_witness :
  (exists resp w', demo_run = (inr resp, w'))
  /\ (inserts_into (py "chatsession") (new_calls MemStore.world demo_run.2)
        = [session_doc demo_request MemStore.noon]
      /\ (MemStore.insert (py "chatsession") (session_doc demo_request MemStore.noon) []).1
         = inr (ChatResponse.session_id demo_response))
  /\ (inserts_into (py "chatsession") (new_calls demo_run.2 followup_run.2) = []
      /\ ChatResponse.session_id followup_response = py "id-0000").
Proof.
  split; [|split].
  - exact (proj1 (@chat_session_insert ascii_runtime MemStore.database
                    demo_request MemStore.world) memstore_available).
  - exact (proj1 (proj2 (@chat_session_insert ascii_runtime MemStore.database
                           demo_request MemStore.world) _ _ demo_run_eq) eq_refl).
  - refine (proj2 (proj2 (@chat_session_insert ascii_runtime MemStore.database
                            demo_followup demo_run.2) _ _ followup_run_eq)
              (py "id-0000") eq_refl _).
    literals_differ.
Defined.

Lemma chat_message_inserts_witness :
  (exists resp w', demo_run = (inr resp, w'))
  /\ inserts_into (py "chatmessage") (new_calls MemStore.world demo_run.2) =
       [ message_doc (py "id-0000") User (py "How are you") (Some Translation);
         message_doc (py "id-0000") Assistant (py "Translation (hi): आप कैसे हैं")
           (Some Translation) ].
Proof.
  split.
  - exact (proj1 (@chat_message_inserts ascii_runtime MemStore.database
                    demo_request MemStore.world) memstore_available).
  - exact (proj1 (proj2 (@chat_message_inserts ascii_runtime MemStore.database
                           demo_request MemStore.world) _ _ demo_run_eq)).
Defined.

Lemma chat_null_mode_witness :
  ChatRequest.mode demo_null_mode = None
  /\ null_mode_run = (inr null_mode_response, null_mode_run.2)
  /\ ChatResponse.mode null_mode_response = py "qa"
  /\ inserts_into (py "chatmessage") (new_calls MemStore.world null_mode_run.2) =
       [ message_doc (py "s1") User (py "What is a flame?") None;
         message_doc (py "s1") Assistant (ChatResponse.reply null_mode_response) None ]
  /\ ChatResponse.reply qa_mode_response = ChatResponse.reply null_mode_response.
Proof.
  pose proof (@chat_null_mode ascii_runtime MemStore.database demo_null_mode
                MemStore.world _ _ eq_refl null_mode_run_eq) as (_ & _ & Hm & Hins & Hqa).
  split; [reflexivity|]. split; [exact null_mode_run_eq|].
  split; [exact Hm|]. split; [exact Hins|].
  exact (proj1 (Hqa demo_qa_mode _ _ _ eq_refl eq_refl eq_refl qa_mode_run_eq)).
Defined.

Lemma reply_deterministic_witness :
  ChatRequest.message demo_null_mode = ChatRequest.message demo_qa_mode
  /\ null_mode_run = (inr null_mode_response, null_mode_run.2)
  /\ qa_mode_run = (inr qa_mode_response, qa_mode_run.2)
  /\ ChatResponse.reply null_mode_response = ChatResponse.reply qa_mode_response
  /\ ChatResponse.suggestions null_mode_response = ChatResponse.suggestions qa_mode_response.
Proof.
  pose proof (proj2 (proj2 (proj2 (@reply_deterministic ascii_runtime MemStore.database)))
                demo_null_mode demo_qa_mode _ _ _ _ _ _
                eq_refl eq_refl eq_refl null_mode_run_eq qa_mode_run_eq) as (Hr & Hs & _).
  split; [reflexivity|]. split; [exact null_mode_run_eq|]. split; [exact qa_mode_run_eq|].
  split; [exact Hr | exact Hs].
Defined.

(** ** The image handler *)

Lemma strip_prefix_app p s : strip_prefix p (p ++ s) = Some s.
Proof.
  induction p as [|a p IH]; [by destruct s|].
  cbn [app strip_prefix]. by rewrite N.eqb_refl.
Qed.

Lemma strip_suffix_app p s : strip_suffix p (s ++ p) = Some s.
Proof.
  unfold strip_suffix. rewrite rev_app_distr, strip_prefix_app.
  cbv [fmap option_fmap option_map]. by rewrite rev_involutive.
Qed.

Lemma embedded_title_svg title : embedded_title (svg_head ++ title ++ svg_tail) = Some title.
Proof.
  unfold embedded_title. rewrite strip_prefix_app.
  cbv [mbind option_bind]. apply strip_suffix_app.
Qed.

Lemma decode_data_uri_encoded bs :
  Forall (fun b => b < 256) bs ->
  decode_data_uri (py "data:image/svg+xml;base64," ++ b64encode bs) = utf8_decode bs.
Proof.
  intros Hbs. unfold decode_data_uri. rewrite strip_prefix_app.
  cbv [mbind option_bind]. rewrite b64decode_encode; [reflexivity | assumption].
Qed.

Lemma well_formed_forallb s : forallb is_scalar s = true -> well_formed s.
Proof.
  unfold well_formed. induction s as [|c s IH]; [constructor|].
  cbn [forallb]. intros [Hc Hs]%andb_true_iff. constructor; [exact Hc | exact (IH Hs)].
Qed.

Lemma well_formed_effective_prompt p : well_formed p -> well_formed (effective_prompt p).
Proof.
  intros Hp. apply well_formed_strip. destruct p; [|done].
  by apply well_formed_forallb.
Qed.

Lemma well_formed_svg p : well_formed p -> well_formed (svg_of p).
Proof.
  intros Hp. unfold svg_of, slice_to, well_formed.
  rewrite !Forall_app. split; [|split].
  - by apply well_formed_forallb.
  - by apply Forall_take, well_formed_effective_prompt.
  - by apply well_formed_forallb.
Qed.

Section ImageFacts.
Context `{Database}.

Lemma image_run req w :
  image req w =
    match utf8_encode (svg_of (ImageRequest.prompt req)) with
    | None => (inl UnicodeEncodeError, w)
    | Some bs =>
        match utf8_decode (b64encode bs) with
        | None => (inl UnicodeDecodeError, w)
        | Some b64 =>
            (inr (py "data:image/svg+xml;base64," ++ b64),
             {| store := (database_insert (py "imagerequest") (image_doc req) (store w)).2;
                clock := clock w; ticks := ticks w;
                calls := calls w ++ [(py "imagerequest", image_doc req)] |})
        end
    end.
Proof.
  unfold image, bind, of_option, try_except_Exception, create_document, ret, raise, image_doc.
  destruct (utf8_encode _) as [bs|]; [|reflexivity].
  destruct (utf8_decode _) as [b64|]; [|reflexivity].
  cbn [store clock ticks calls].
  destruct (database_insert _ _ _) as [[e|id] s]; reflexivity.
Qed.

Lemma image_returns req w :
  well_formed (ImageRequest.prompt req) ->
  exists bs,
    utf8_encode (svg_of (ImageRequest.prompt req)) = Some bs
    /\ (image req w).1 = inr (py "data:image/svg+xml;base64," ++ b64encode bs)
    /\ calls (image req w).2 = calls w ++ [(py "imagerequest", image_doc req)].
Proof.
  intros Hp. destruct (utf8_encode_well_formed _ (well_formed_svg _ Hp)) as [bs Hbs].
  exists bs. rewrite image_run, Hbs, (utf8_decode_ascii _ (b64encode_ascii bs)). auto.
Qed.

Lemma image_result_store_free req (w1 w2 : World) : (image req w1).1 = (image req w2).1.
Proof.
  rewrite !image_run.
  destruct (utf8_encode _) as [bs|]; [|reflexivity].
  destruct (utf8_decode _) as [b64|]; reflexivity.
Qed.

(** For a well-formed prompt the handler returns a data URI that reads
    back as the markup it built. *)
Lemma image_decodes req w :
  well_formed (ImageRequest.prompt req) ->
  exists b64,
    (image req w).1 = inr (py "data:image/svg+xml;base64," ++ b64)
    /\ decode_data_uri (py "data:image/svg+xml;base64," ++ b64)
       = Some (svg_of (ImageRequest.prompt req)).
Proof.
  intros Hp. destruct (image_returns req w Hp) as (bs & Hbs & Hres & _).
  exists (b64encode bs). split; [exact Hres|].
  rewrite decode_data_uri_encoded by (by eapply utf8_encode_bytes).
  by apply utf8_decode_encode.
Qed.

(** C7, amended: [image] returns for every prompt that is a well-formed
    Unicode string, whatever the store does: the result is
    "data:image/svg+xml;base64," followed by base64 text, it decodes
    (base64, then UTF-8) to the template markup, and the title text in
    that markup is the first 80 characters of the trimmed prompt, with
    "Shahbaz AI" standing in for an empty prompt. For a non-empty prompt
    without surrounding whitespace the title is the prompt, or its first
    80 characters. *)
Theorem image_total req w :
  well_formed (ImageRequest.prompt req) ->
  exists uri,
    (image req w).1 = inr uri
    /\ (exists b64, uri = py "data:image/svg+xml;base64," ++ b64)
    /\ decode_data_uri uri = Some (svg_of (ImageRequest.prompt req))
    /\ embedded_title (svg_of (ImageRequest.prompt req))
       = Some (slice_to 80 (effective_prompt (ImageRequest.prompt req)))
    /\ (ImageRequest.prompt req <> [] ->
        strip (ImageRequest.prompt req) = ImageRequest.prompt req ->
        embedded_title (svg_of (ImageRequest.prompt req))
        = Some (slice_to 80 (ImageRequest.prompt req))).
Proof.
  intros Hp. destruct (image_decodes req w Hp) as (b64 & Hres & Hdec).
  eexists. split; [exact Hres|]. split; [eauto|]. split; [exact Hdec|]. split.
  - apply embedded_title_svg.
  - intros Hne Hstrip. unfold svg_of. rewrite embedded_title_svg.
    unfold effective_prompt. destruct (ImageRequest.prompt req); [contradiction|].
    rewrite Hstrip. reflexivity.
Qed.

(** C8: the insert into imagerequest is best-effort. Where the store
    raises on it, [image] returns what it returns where the store takes
    it; for a well-formed prompt that is the data URI, the insert was
    attempted once, and the store is left as the failed insert left
    it. *)
Theorem image_audit_best_effort req (w1 w2 : World) e s1 id s2 :
  database_insert (py "imagerequest") (image_doc req) (store w1) = (inl e, s1) ->
  database_insert (py "imagerequest") (image_doc req) (store w2) = (inr id, s2) ->
  (image req w1).1 = (image req w2).1
  /\ (well_formed (ImageRequest.prompt req) ->
      exists uri,
        (image req w1).1 = inr uri /\ (image req w2).1 = inr uri
        /\ inserts_into (py "imagerequest") (new_calls w1 (image req w1).2) = [image_doc req]
        /\ store (image req w1).2 = s1).
Proof.
  intros Hfail Hok. split; [apply image_result_store_free|].
  intros Hp. destruct (image_returns req w1 Hp) as (bs & Hbs & Hres & Hcalls).
  exists (py "data:image/svg+xml;base64," ++ b64encode bs).
  split; [exact Hres|]. split; [by rewrite <- (image_result_store_free req w1 w2)|].
  split.
  - unfold new_calls. rewrite Hcalls, drop_app_length. sort_inserts. reflexivity.
  - rewrite image_run, Hbs, (utf8_decode_ascii _ (b64encode_ascii bs)).
    cbn [snd store]. by rewrite Hfail.
Qed.

End ImageFacts.

(** C7 as stated fails on the empty prompt: the title in the markup is
    "Shahbaz AI", not the prompt. *)
Lemma image_empty_prompt_title :
  ~ exists uri,
      (@image MemStore.database empty_image MemStore.world).1 = inr uri
      /\ decode_data_uri uri ≫= embedded_title
         = Some (slice_to 80 (ImageRequest.prompt empty_image)).
Proof.
  intros (uri & Hrun & Htitle).
  assert (Ht : embedded_title (svg_of (ImageRequest.prompt empty_image))
               = Some (py "Shahbaz AI")) by (vm_compute; reflexivity).
  destruct (@image_decodes MemStore.database empty_image MemStore.world)
    as (b64 & Hrun' & Hdec); [constructor|].
  assert (Huri : uri = py "data:image/svg+xml;base64," ++ b64) by congruence.
  rewrite Huri, Hdec in Htitle. cbv [mbind option_bind] in Htitle. rewrite Ht in Htitle.
  clear -Htitle. vm_compute in Htitle. discriminate Htitle.
Qed.

Lemma image_total_witness :
  well_formed (ImageRequest.prompt demo_image)
  /\ exists uri,
       (@image MemStore.database demo_image MemStore.world).1 = inr uri
       /\ decode_data_uri uri = Some (svg_of (ImageRequest.prompt demo_image))
       /\ embedded_title (svg_of (ImageRequest.prompt demo_image))
          = Some (slice_to 80 (effective_prompt (ImageRequest.prompt demo_image))).
Proof.
  assert (Hp : well_formed (ImageRequest.prompt demo_image))
    by (apply well_formed_forallb; vm_compute; reflexivity).
  split; [exact Hp|].
  destruct (@image_total MemStore.database demo_image MemStore.world Hp)
    as (uri & Hrun & _ & Hdec & Htitle & _).
  exists uri. auto.
Defined.

Example image_demo_title :
  embedded_title (svg_of (ImageRequest.prompt demo_image)) = Some (py "blue flame <logo>").
Proof. vm_compute. reflexivity. Qed.

Lemma image_audit_best_effort_witness :
  let w1 := FlakyStore.world [py "imagerequest"] in
  let w2 := FlakyStore.world [] in
  FlakyStore.insert (py "imagerequest") (image_doc demo_image) (store w1)
    = (inl FlakyStore.ServerSelectionTimeoutError, store w1)
  /\ (FlakyStore.insert (py "imagerequest") (image_doc demo_image) (store w2)).1
     = inr (py "id-0000")
  /\ (@image FlakyStore.database demo_image w1).1 = (@image FlakyStore.database demo_image w2).1.
Proof.
  intros w1 w2.
  assert (H1 : @database_insert FlakyStore.database (py "imagerequest")
                 (image_doc demo_image) (store w1)
               = (inl FlakyStore.ServerSelectionTimeoutError, store w1))
    by (vm_compute; reflexivity).
  assert (H2 : @database_insert FlakyStore.database (py "imagerequest")
                 (image_doc demo_image) (store w2)
               = (inr (py "id-0000"),
                  (@database_insert FlakyStore.database (py "imagerequest")
                     (image_doc demo_image) (store w2)).2))
    by (vm_compute; reflexivity).
  split; [exact H1|]. split; [exact (f_equal fst H2)|].
  exact (proj1 (@image_audit_best_effort FlakyStore.database demo_image w1 w2 _ _ _ _ H1 H2)).
Defined.

(** ** More on [strip], [split] and [join] *)

Lemma lstrip_lstrip s : lstrip (lstrip s) = lstrip s.
Proof.
  induction s as [|c s IH]; [reflexivity|]. cbn [lstrip].
  destruct (isspace c) eqn:Hc; [exact IH|]. cbn [lstrip]. by rewrite Hc.
Qed.

Lemma lstrip_spaces ws : forallb isspace ws = true -> lstrip ws = [].
Proof.
  induction ws as [|c ws IH]; [reflexivity|].
  cbn [forallb lstrip]. intros [-> Hws]%andb_true_iff. auto.
Qed.

Lemma lstrip_app_spaces ws s : forallb isspace ws = true -> lstrip (ws ++ s) = lstrip s.
Proof.
  induction ws as [|c ws IH]; [reflexivity|].
  cbn [forallb app lstrip]. intros [-> Hws]%andb_true_iff. auto.
Qed.

(** What [lstrip] leaves starts with a character that is not whitespace. *)
Lemma lstrip_head s c t : lstrip s = c :: t -> isspace c = false.
Proof.
  induction s as [|a s IH]; [discriminate|]. cbn [lstrip].
  destruct (isspace a) eqn:Ha; [exact IH|]. by intros [= <- _].
Qed.

Lemma lstrip_app s b :
  lstrip (s ++ b) = if forallb isspace s then lstrip b else lstrip s ++ b.
Proof.
  induction s as [|c s IH]; [reflexivity|]. cbn [app lstrip forallb].
  destruct (isspace c); [exact IH | reflexivity].
Qed.

Lemma forallb_rev {A} (f : A -> bool) l : forallb f (rev l) = forallb f l.
Proof.
  induction l as [|x l IH]; [reflexivity|].
  cbn [rev forallb]. rewrite forallb_app, IH. cbn [forallb]. rewrite andb_true_r.
  apply andb_comm.
Qed.

Lemma rstrip_app_spaces s ws : forallb isspace ws = true -> rstrip (s ++ ws) = rstrip s.
Proof.
  intros Hws. unfold rstrip. rewrite rev_app_distr, lstrip_app_spaces; [reflexivity|].
  by rewrite forallb_rev.
Qed.

Lemma rstrip_rstrip s : rstrip (rstrip s) = rstrip s.
Proof. unfold rstrip. by rewrite rev_involutive, lstrip_lstrip. Qed.

Lemma lstrip_rstrip_lstrip s : lstrip (rstrip (lstrip s)) = rstrip (lstrip s).
Proof.
  destruct (rstrip_suffix (lstrip s)) as (ws & Hs & _).
  destruct (rstrip (lstrip s)) as [|c t] eqn:Hr; [reflexivity|].
  cbn [app] in Hs. apply lstrip_head in Hs. cbn [lstrip]. by rewrite Hs.
Qed.

Lemma strip_strip s : strip (strip s) = strip s.
Proof. unfold strip. by rewrite lstrip_rstrip_lstrip, rstrip_rstrip. Qed.

(** Whitespace around a string does not survive [strip]. *)
Lemma strip_padding a s b :
  forallb isspace a = true -> forallb isspace b = true ->
  strip (a ++ s ++ b) = strip s.
Proof.
  intros Ha Hb. unfold strip. rewrite lstrip_app_spaces by exact Ha.
  rewrite lstrip_app. destruct (forallb isspace s) eqn:Hs.
  - by rewrite (lstrip_spaces b Hb), (lstrip_spaces s Hs).
  - by apply rstrip_app_spaces.
Qed.

Lemma split_from_nonspace w : forall cur s,
  forallb (fun c => negb (isspace c)) w = true ->
  split_from cur (w ++ s) = split_from (rev w ++ cur) s.
Proof.
  induction w as [|c w IH]; intros cur s Hw; [reflexivity|].
  cbn [forallb] in Hw. apply andb_true_iff in Hw as [Hc%negb_true_iff Hw].
  cbn [app split_from rev]. rewrite Hc, IH by exact Hw. by rewrite <- app_assoc.
Qed.

Lemma split_word_end w : is_word w -> split_from [] w = [w].
Proof.
  intros [Hne Hw]. rewrite <- (app_nil_r w) at 1.
  rewrite split_from_nonspace by exact Hw. cbn [split_from]. rewrite app_nil_r.
  destruct (rev w) eqn:Hr.
  - apply (f_equal (@rev N)) in Hr. rewrite rev_involutive in Hr. done.
  - by rewrite <- Hr, rev_involutive.
Qed.

Lemma split_word_space w c s :
  is_word w -> isspace c = true -> split_from [] (w ++ c :: s) = w :: split_from [] s.
Proof.
  intros [Hne Hw] Hc. rewrite split_from_nonspace by exact Hw.
  cbn [split_from]. rewrite Hc, app_nil_r.
  destruct (rev w) eqn:Hr.
  - apply (f_equal (@rev N)) in Hr. rewrite rev_involutive in Hr. done.
  - by rewrite <- Hr, rev_involutive.
Qed.

(** Splitting what [join] made of words gives the words back. *)
Lemma split_join ws : Forall is_word ws -> split (join (py " ") ws) = ws.
Proof.
  unfold split. induction 1 as [|w ws Hw Hws IH]; [reflexivity|].
  destruct ws as [|w' ws].
  - cbn [join]. by apply split_word_end.
  - change (join (py " ") (w :: w' :: ws)) with (w ++ 32 :: join (py " ") (w' :: ws)).
    rewrite split_word_space by done. by rewrite IH.
Qed.

(** [split] only produces words. *)
Lemma split_from_words s : forall cur,
  forallb (fun c => negb (isspace c)) cur = true -> Forall is_word (split_from cur s).
Proof.
  assert (Hrev : forall cur, cur <> [] ->
            forallb (fun c => negb (isspace c)) cur = true -> is_word (rev cur)).
  { intros cur Hne Hcur. split; [|by rewrite forallb_rev].
    intros Hr. apply (f_equal (@rev N)) in Hr. by rewrite rev_involutive in Hr. }
  induction s as [|c s IH]; intros cur Hcur; cbn [split_from].
  - destruct cur; [constructor|]. constructor; [by apply Hrev | constructor].
  - destruct (isspace c) eqn:Hc.
    + destruct cur; [by apply IH|]. constructor; [by apply Hrev | by apply IH].
    + apply IH. cbn [forallb]. by rewrite Hc.
Qed.

Lemma split_words s : Forall is_word (split s).
Proof. by apply split_from_words. Qed.

Lemma join_snoc_app sep l x e : join sep (l ++ [x]) ++ e = join sep (l ++ [x ++ e]).
Proof.
  induction l as [|y l IH]; [reflexivity|].
  destruct l as [|z l].
  - cbn [app join]. by rewrite <- !app_assoc.
  - change (join sep ((y :: z :: l) ++ [x])) with (y ++ sep ++ join sep ((z :: l) ++ [x])).
    change (join sep ((y :: z :: l) ++ [x ++ e]))
      with (y ++ sep ++ join sep ((z :: l) ++ [x ++ e])).
    by rewrite <- !app_assoc, IH.
Qed.

Lemma is_word_app w e :
  is_word w -> forallb (fun c => negb (isspace c)) e = true -> is_word (w ++ e).
Proof.
  intros [Hne Hw] He. split; [by destruct w|]. rewrite forallb_app. by rewrite Hw, He.
Qed.

(** ** More on the reply helpers *)

Section ReplyFacts.
Context `{PyRuntime}.

(** X1: whitespace around the prompt never changes the reply, in any
    mode: the generator sees only the trimmed prompt. *)
Theorem generate_reply_ignores_padding (a b prompt mode language : pystr) :
  forallb isspace a = true -> forallb isspace b = true ->
  _generate_reply (a ++ prompt ++ b) mode language = _generate_reply prompt mode language.
Proof. intros Ha Hb. unfold _generate_reply. by rewrite strip_padding. Qed.

(** X2: outside translation mode the language has no influence on the
    reply. *)
Theorem generate_reply_language_only_in_translation (prompt mode l1 l2 : pystr) :
  mode <> py "translation" ->
  _generate_reply prompt mode l1 = _generate_reply prompt mode l2.
Proof.
  intros Hm. unfold _generate_reply.
  rewrite !(decide_False (P := mode = py "translation")) by exact Hm. reflexivity.
Qed.

(** X3: the generator knows only translation, summary and writing: for
    every other mode, the tone modes and unknown ones included, it
    produces the core it produces for qa. *)
Theorem generate_reply_default_core (prompt mode language : pystr) :
  mode <> py "translation" -> mode <> py "summary" -> mode <> py "writing" ->
  _generate_reply prompt mode language = _generate_reply prompt (py "qa") language
  /\ _generate_reply prompt mode language =
       py "Answer: " ++ strip prompt
       ++ py "\n\nKey points:\n- Direct answer\n- Extra context\n- Practical tip".
Proof.
  intros H1 H2 H3. unfold _generate_reply.
  rewrite !(decide_False (P := mode = _)) by assumption.
  rewrite !(decide_False (P := py "qa" = _)) by literals_differ.
  split; [reflexivity|]. do 2 f_equal.
Qed.

Lemma summary_reply prompt language :
  _generate_reply prompt (py "summary") language =
    py "Summary:" ++ 32 ::
      (if (40 <? length (split prompt))%nat
       then join (py " ") (take 40 (split prompt)) ++ py "…"
       else strip prompt).
Proof.
  unfold _generate_reply.
  rewrite decide_False by literals_differ. rewrite decide_True by reflexivity.
  by rewrite split_strip.
Qed.

(** X4: the words of a summary reply: after the label "Summary:" come
    the words of the prompt, all of them when there are at most 40, and
    otherwise the first 40 with the ellipsis attached to the last; so a
    summary reply never has more than 41 words. *)
Theorem summary_reply_words (prompt language : pystr) :
  let words := split prompt in
  let reply := _generate_reply prompt (py "summary") language in
  ((length words <= 40)%nat -> split reply = py "Summary:" :: words)
  /\ ((40 < length words)%nat ->
      exists w40, words !! 39%nat = Some w40
        /\ split reply = py "Summary:" :: take 39 words ++ [w40 ++ py "…"])
  /\ length (split reply) = S (min 40 (length words)).
Proof.
  intros words reply. subst reply. rewrite summary_reply. fold words.
  assert (Hlabel : is_word (py "Summary:")) by (split; [discriminate | reflexivity]).
  assert (Hsplit : forall body,
            split (py "Summary:" ++ 32 :: body) = py "Summary:" :: split body).
  { intros body. unfold split. by rewrite (split_word_space _ 32). }
  rewrite !Hsplit.
  assert (Hshort : (length words <= 40)%nat ->
            (if (40 <? length words)%nat
             then join (py " ") (take 40 words) ++ py "…" else strip prompt)
            = strip prompt).
  { intros Hlen. by rewrite (proj2 (Nat.ltb_ge _ _) Hlen). }
  assert (Hlong : (40 < length words)%nat ->
            exists w40, words !! 39%nat = Some w40
              /\ split
                   (if (40 <? length words)%nat
                    then join (py " ") (take 40 words) ++ py "…" else strip prompt)
                 = take 39 words ++ [w40 ++ py "…"]).
  { intros Hlen. rewrite (proj2 (Nat.ltb_lt _ _) Hlen).
    destruct (lookup_lt_is_Some_2 words 39) as [w40 Hw]; [lia|].
    exists w40. split; [exact Hw|].
    rewrite (take_S_r _ _ _ Hw), join_snoc_app.
    apply split_join. apply Forall_app. split.
    - apply Forall_take, split_words.
    - constructor; [|constructor]. apply is_word_app; [|reflexivity].
      pose proof (split_words prompt) as Hall. rewrite Forall_lookup in Hall.
      exact (Hall _ _ Hw). }
  split; [|split].
  - intros Hlen. rewrite (Hshort Hlen). f_equal. apply split_strip.
  - intros Hlen. destruct (Hlong Hlen) as (w40 & Hw & Hbody).
    exists w40. split; [exact Hw|]. by rewrite Hbody.
  - cbn [length]. f_equal.
    destruct (Nat.le_gt_cases (length words) 40) as [Hlen|Hlen].
    + rewrite (Hshort Hlen), split_strip. fold words. lia.
    + destruct (Hlong Hlen) as (w40 & Hw & ->).
      rewrite length_app, length_take. cbn [length]. lia.
Qed.

Lemma writing_reply prompt language :
  _generate_reply prompt (py "writing") language =
    py "Here is a polished draft based on your request:\n\nTitle: "
    ++ slice_to 60 (strip prompt)
    ++ py "\n\nParagraph 1: A clear introduction that frames the goal and context.\n\nParagraph 2: Key insights, structure, and supporting details with a smooth narrative.\n\nParagraph 3: A succinct wrap‑up with next steps and a strong closing.".
Proof.
  unfold _generate_reply.
  rewrite !decide_False by literals_differ. rewrite decide_True by reflexivity.
  change (py "Here is a polished draft based on your request:\n\nTitle: ")
    with (py "Here is a polished draft based on your request:\n\n" ++ py "Title: ").
  rewrite <- app_assoc. do 3 f_equal.
Qed.

(** X5: a writing reply depends on the prompt only through the first 60
    characters of the trimmed prompt, and its length is the 283
    characters of the template plus the length of that title, so at most
    343 whatever the prompt. *)
Theorem writing_reply_bounded (prompt language : pystr) :
  (forall prompt' language',
     slice_to 60 (strip prompt) = slice_to 60 (strip prompt') ->
     _generate_reply prompt (py "writing") language
     = _generate_reply prompt' (py "writing") language')
  /\ length (_generate_reply prompt (py "writing") language)
     = (283 + min 60 (length (strip prompt)))%nat
  /\ (length (_generate_reply prompt (py "writing") language) <= 343)%nat.
Proof.
  rewrite writing_reply.
  assert (Hlen : length (py "Here is a polished draft based on your request:\n\nTitle: "
    ++ slice_to 60 (strip prompt)
    ++ py "\n\nParagraph 1: A clear introduction that frames the goal and context.\n\nParagraph 2: Key insights, structure, and supporting details with a smooth narrative.\n\nParagraph 3: A succinct wrap‑up with next steps and a strong closing.")
    = (283 + min 60 (length (strip prompt)))%nat).
  { rewrite !length_app. unfold slice_to. rewrite length_take.
    match goal with |- (?a + (_ + ?b))%nat = _ =>
      replace a with 56%nat by (vm_compute; reflexivity);
      replace b with 227%nat by (vm_compute; reflexivity) end.
    lia. }
  split; [|split].
  - intros prompt' language' Heq. rewrite writing_reply. by rewrite Heq.
  - exact Hlen.
  - rewrite Hlen. lia.
Qed.

(** In translation mode a language other than ur and hi has no entry:
    the reply echoes the trimmed prompt. *)
Lemma translation_echo prompt language :
  language <> py "ur" -> language <> py "hi" ->
  _generate_reply prompt (py "translation") language
  = py "Translation (" ++ language ++ py "): " ++ strip prompt.
Proof.
  intros Hur Hhi. rewrite translation_reply.
  destruct (translations !! _) as [entry|] eqn:He; [|reflexivity].
  destruct (entry !! language) as [text|] eqn:Hl; [|reflexivity].
  destruct (proj1 (translations_languages _ _ language He)); [eauto|done..].
Qed.

End ReplyFacts.

(** ** More on the chat handler *)

Lemma inserts_into_app c l1 l2 :
  inserts_into c (l1 ++ l2) = inserts_into c l1 ++ inserts_into c l2.
Proof. unfold inserts_into. by rewrite filter_app, fmap_app. Qed.

Lemma app_nonempty {A} (a b : list A) : a <> [] -> a ++ b <> [].
Proof. by destruct a. Qed.

(** One [create_document] call of a handler, raising or not. *)
Ltac insert_cases :=
  cbn [store clock ticks calls];
  match goal with
  | |- context [database_insert ?c ?d ?s] =>
      let e := fresh "e" in let i := fresh "id" in
      let s' := fresh "s" in let E := fresh "Hins" in
      destruct (database_insert c d s) as [[e|i] s'] eqn:E
  end;
  cbn [store clock ticks calls].

Lemma get_modes_elem s : s ∈ get_modes <-> exists m, s = Mode_str m.
Proof.
  change get_modes
    with (Mode_str <$> [Qa; Writing; Translation; Summary; Student; Professional; Fun]).
  rewrite list_elem_of_fmap. split.
  - intros (m & -> & _). eauto.
  - intros [m ->]. exists m. split; [reflexivity|]. destruct m; set_solver.
Qed.

Section MoreChatFacts.
Context `{PyRuntime} `{Database}.

Lemma generate_reply_nonempty prompt mode language :
  _generate_reply prompt mode language <> [].
Proof.
  unfold _generate_reply. repeat case_decide;
    repeat match goal with |- context [match ?x with _ => _ end] => destruct x end;
    apply app_nonempty; discriminate.
Qed.

Lemma tone_wrap_nonempty text mode : text <> [] -> _tone_wrap text mode <> [].
Proof.
  intros Ht. unfold _tone_wrap. repeat case_decide; try exact Ht;
    apply app_nonempty; discriminate.
Qed.

(** X6: a translation request that leaves the language out, or asks
    for en, gets its trimmed message back behind "Translation (en): ":
    the dictionary has no en entries. *)
Theorem chat_translation_default_language req w resp w' :
  ChatRequest.mode req = Some Translation ->
  ChatRequest.language req = None \/ ChatRequest.language req = Some En ->
  chat req w = (inr resp, w') ->
  ChatResponse.reply resp = py "Translation (en): " ++ strip (ChatRequest.message req).
Proof.
  intros Hmode Hlang Hrun.
  destruct (chat_returns_inv _ _ _ _ Hrun) as (Hr & _).
  rewrite Hr. unfold reply_of. rewrite Hmode.
  assert (Hen : Language_str (language_or_en (ChatRequest.language req)) = py "en")
    by (destruct Hlang as [-> | ->]; reflexivity).
  rewrite Hen. change (Mode_str (mode_or_qa (Some Translation))) with (py "translation").
  rewrite tone_wrap_other by literals_differ.
  rewrite translation_echo by literals_differ. reflexivity.
Qed.

(** X7: every response of [chat] echoes one of the modes [get_modes]
    lists, carries that mode's entry of the suggestion bank, which is
    exactly 3 suggestions, and has a reply that is not empty, whatever
    the message. *)
Theorem chat_response_shape req w resp w' :
  chat req w = (inr resp, w') ->
  ChatResponse.mode resp ∈ get_modes
  /\ bank !! ChatResponse.mode resp = Some (ChatResponse.suggestions resp)
  /\ length (ChatResponse.suggestions resp) = 3%nat
  /\ ChatResponse.reply resp <> [].
Proof.
  intros Hrun. destruct (chat_returns_inv _ _ _ _ Hrun) as (Hr & Hs & Hm & _).
  rewrite Hr, Hs, Hm. split; [|split; [|split]].
  - apply get_modes_elem. eauto.
  - destruct (mode_or_qa (ChatRequest.mode req)); vm_compute; reflexivity.
  - destruct (mode_or_qa (ChatRequest.mode req)); vm_compute; reflexivity.
  - apply tone_wrap_nonempty, generate_reply_nonempty.
Qed.

(** X8: when [chat] raises, the exception is the one a
    [create_document] call raised; the calls planned before it were
    made and are not undone, and none is made after it. *)
Theorem chat_raises_inv req w e w' :
  chat req w = (inl e, w') ->
  exists sid k c d s,
    planned_calls req w sid !! k = Some (c, d)
    /\ calls w' = calls w ++ take (S k) (planned_calls req w sid)
    /\ database_insert c d s = (inl e, store w')
    /\ (k = 0%nat -> s = store w).
Proof.
  unfold chat, bind, create_document, utcnow, ret, planned_calls, reply_of,
    session_doc, message_doc.
  destruct (falsy (ChatRequest.session_id req)) eqn:Hf.
  - insert_cases.
    { intros [= <- <-]. exists [], 0%nat. eexists _, _, _.
      split; [reflexivity|]. split; [reflexivity|]. split; [exact Hins | reflexivity]. }
    insert_cases.
    { intros [= <- <-]. exists id, 1%nat. eexists _, _, _.
      split; [reflexivity|]. cbn [store calls]. rewrite <- app_assoc.
      split; [reflexivity|]. split; [exact Hins0 | discriminate]. }
    insert_cases; [|discriminate].
    intros [= <- <-]. exists id, 2%nat. eexists _, _, _.
    split; [reflexivity|]. cbn [store calls]. rewrite <- !app_assoc.
    split; [reflexivity|]. split; [exact Hins1 | discriminate].
  - destruct (ChatRequest.session_id req) as [[|a sid]|] eqn:Hs; try discriminate.
    cbn [default]. insert_cases.
    { intros [= <- <-]. exists (a :: sid), 0%nat. eexists _, _, _.
      split; [reflexivity|]. split; [reflexivity|]. split; [exact Hins | reflexivity]. }
    insert_cases; [|discriminate].
    intros [= <- <-]. exists (a :: sid), 1%nat. eexists _, _, _.
    split; [reflexivity|]. cbn [store calls]. rewrite <- app_assoc.
    split; [reflexivity|]. split; [exact Hins0 | discriminate].
Qed.

Lemma planned_calls_shape req w sid :
  (1 <= length (planned_calls req w sid) <= 3)%nat
  /\ Forall (fun c => c.1 = py "chatsession" \/ c.1 = py "chatmessage")
       (planned_calls req w sid).
Proof.
  unfold planned_calls. destruct (falsy _); cbn [app length]; (split; [lia|]);
    repeat (apply Forall_cons; split); try apply Forall_nil; cbn [fst]; auto.
Qed.

(** X9: whether it returns or raises, [chat] only adds to the call log:
    between 1 and 3 [create_document] calls, each on chatsession or
    chatmessage, never on imagerequest. *)
Theorem chat_calls_bounded req w :
  exists new,
    calls (chat req w).2 = calls w ++ new
    /\ (1 <= length new <= 3)%nat
    /\ Forall (fun c => c.1 = py "chatsession" \/ c.1 = py "chatmessage") new
    /\ inserts_into (py "imagerequest") new = [].
Proof.
  assert (Hnone : forall l : list (pystr * Document),
            Forall (fun c => c.1 = py "chatsession" \/ c.1 = py "chatmessage") l ->
            inserts_into (py "imagerequest") l = []).
  { induction 1 as [|[c d] l Hc _ IH]; [reflexivity|].
    rewrite inserts_into_cons_ne; [exact IH|].
    cbn [fst] in Hc. destruct Hc as [-> | ->]; literals_differ. }
  destruct (chat req w) as [[e|resp] w'] eqn:Hrun; cbn [snd].
  - destruct (chat_raises_inv _ _ _ _ Hrun) as (sid & k & c & d & s & Hk & Hcalls & _).
    destruct (planned_calls_shape req w sid) as [Hlen Hall].
    exists (take (S k) (planned_calls req w sid)).
    split; [exact Hcalls|]. split; [|split].
    + rewrite length_take. apply lookup_lt_Some in Hk. lia.
    + by apply Forall_take.
    + by apply Hnone, Forall_take.
  - destruct (chat_returns_inv _ _ _ _ Hrun) as (_ & _ & _ & Hs).
    destruct (planned_calls_shape req w (ChatResponse.session_id resp)) as [Hlen Hall].
    exists (planned_calls req w (ChatResponse.session_id resp)).
    split; [|split; [exact Hlen | split; [exact Hall | by apply Hnone]]].
    unfold planned_calls. destruct (falsy _); destruct Hs as [_ ->]; reflexivity.
Qed.

(** X10: continuing a conversation. A second call that carries the
    session id the first one returned, provided the store assigned a
    non-empty id, returns the same id and creates no session; the four
    messages of the two calls are stored under that one id, in order. *)
Theorem chat_session_continues req1 req2 w resp1 w1 resp2 w2 :
  chat req1 w = (inr resp1, w1) ->
  ChatResponse.session_id resp1 <> [] ->
  ChatRequest.session_id req2 = Some (ChatResponse.session_id resp1) ->
  chat req2 w1 = (inr resp2, w2) ->
  let sid := ChatResponse.session_id resp1 in
  ChatResponse.session_id resp2 = sid
  /\ inserts_into (py "chatsession") (new_calls w1 w2) = []
  /\ inserts_into (py "chatmessage") (new_calls w w2) =
       [ message_doc sid User (ChatRequest.message req1) (ChatRequest.mode req1);
         message_doc sid Assistant (ChatResponse.reply resp1) (ChatRequest.mode req1);
         message_doc sid User (ChatRequest.message req2) (ChatRequest.mode req2);
         message_doc sid Assistant (ChatResponse.reply resp2) (ChatRequest.mode req2) ].
Proof.
  intros Hrun1 Hne Hsid Hrun2 sid.
  pose proof (chat_messages_logged _ _ _ _ Hrun1) as Hm1.
  pose proof (chat_messages_logged _ _ _ _ Hrun2) as Hm2.
  destruct (chat_returns_inv _ _ _ _ Hrun1) as (Hr1 & _ & _ & Hs1).
  destruct (chat_returns_inv _ _ _ _ Hrun2) as (Hr2 & _ & _ & Hs2).
  rewrite Hsid in Hs2.
  assert (Hf : falsy (Some (ChatResponse.session_id resp1)) = false)
    by (destruct (ChatResponse.session_id resp1); [done | reflexivity]).
  rewrite Hf in Hs2. destruct Hs2 as [[= Hid] Hcalls2].
  assert (Hext : exists l1, calls w1 = calls w ++ l1).
  { destruct (falsy (ChatRequest.session_id req1)); destruct Hs1 as [_ ->]; eauto. }
  destruct Hext as [l1 Hl1].
  split; [by rewrite <- Hid|]. split.
  - rewrite (new_calls_app _ _ _ Hcalls2). apply inserts_into_chat_messages.
  - assert (Hall : new_calls w w2 = new_calls w w1 ++ new_calls w1 w2).
    { rewrite (new_calls_app _ _ _ Hl1), (new_calls_app _ _ _ Hcalls2).
      apply new_calls_app. by rewrite Hcalls2, Hl1, <- app_assoc. }
    rewrite Hall, inserts_into_app, Hm1, Hm2, <- Hr1, <- Hr2, <- Hid. reflexivity.
Qed.


End MoreChatFacts.

(** X12: the modes [get_modes] lists are the seven values of the mode
    enum, in its order and without repetition, and they are exactly the
    keys of the suggestion bank: every advertised mode is accepted by
    [chat] and has suggestions. *)
Theorem get_modes_consistent :
  get_modes = Mode_str <$> [Qa; Writing; Translation; Summary; Student; Professional; Fun]
  /\ NoDup get_modes
  /\ (forall s, s ∈ get_modes <-> exists m, s = Mode_str m)
  /\ (forall s, s ∈ get_modes <-> is_Some (bank !! s)).
Proof.
  split; [reflexivity|]. split; [|split; [exact get_modes_elem|]].
  - apply (bool_decide_unpack _). vm_compute. reflexivity.
  - intros s. rewrite get_modes_elem. symmetry. apply bank_keys.
Qed.

(** ** More on the image handler *)

Lemma utf8_encode_app a b :
  utf8_encode (a ++ b) =
    match utf8_encode a, utf8_encode b with
    | Some x, Some y => Some (x ++ y)
    | _, _ => None
    end.
Proof.
  induction a as [|c a IH]; cbn [app utf8_encode].
  - by destruct (utf8_encode b).
  - rewrite IH. destruct (utf8_encode_cp c), (utf8_encode a), (utf8_encode b);
      try reflexivity. by rewrite app_assoc.
Qed.

Lemma utf8_encode_cp_Some c bs : utf8_encode_cp c = Some bs -> is_scalar c = true.
Proof.
  unfold utf8_encode_cp, is_scalar.
  destruct (N.ltb_spec c 0x80); [intros _; decide_tests; reflexivity|].
  destruct (N.ltb_spec c 0x800); [intros _; decide_tests; reflexivity|].
  destruct (N.ltb_spec c 0x10000).
  { destruct (_ && _) eqn:Hs; [discriminate|]. intros _.
    rewrite (proj2 (N.ltb_lt c 0x110000)) by lia. reflexivity. }
  destruct (N.ltb_spec c 0x110000); [|discriminate].
  intros _. decide_tests. reflexivity.
Qed.

Lemma utf8_encode_Some s bs : utf8_encode s = Some bs -> well_formed s.
Proof.
  revert bs. induction s as [|c s IH]; intros bs; [constructor|].
  cbn [utf8_encode].
  destruct (utf8_encode_cp c) as [b|] eqn:Hc; [|discriminate].
  destruct (utf8_encode s) as [r|]; [|discriminate].
  intros _. constructor; [by eapply utf8_encode_cp_Some | by eapply IH].
Qed.

Lemma utf8_encode_cp_length c bs :
  utf8_encode_cp c = Some bs -> (1 <= length bs <= 4)%nat.
Proof.
  unfold utf8_encode_cp. repeat case_match; intros [= <-]; cbn [length]; lia.
Qed.

Lemma utf8_encode_length s bs :
  utf8_encode s = Some bs -> (length s <= length bs <= 4 * length s)%nat.
Proof.
  revert bs. induction s as [|c s IH]; intros bs; cbn [utf8_encode].
  - intros [= <-]. cbn. lia.
  - destruct (utf8_encode_cp c) as [b|] eqn:Hc; [|discriminate].
    destruct (utf8_encode s) as [r|]; [|discriminate].
    intros [= <-]. rewrite length_app. cbn [length].
    pose proof (utf8_encode_cp_length _ _ Hc). pose proof (IH r eq_refl). lia.
Qed.

Lemma b64encode_length_len n : forall bs,
  (length bs <= n)%nat -> length (b64encode bs) = (4 * ((length bs + 2) / 3))%nat.
Proof.
  induction n as [|n IH]; intros bs Hlen.
  { destruct bs; [reflexivity | cbn in Hlen; lia]. }
  destruct bs as [|a [|b [|c r]]]; [reflexivity..|].
  cbn [b64encode length] in *. rewrite IH by lia.
  replace (S (S (S (length r))) + 2)%nat with (1 * 3 + (length r + 2))%nat by lia.
  rewrite Nat.div_add_l by lia. lia.
Qed.

Lemma b64encode_length bs : length (b64encode bs) = (4 * ((length bs + 2) / 3))%nat.
Proof. by apply (b64encode_length_len (length bs)). Qed.

Lemma b64char_in_alphabet n : is_Some (b64val (b64char n)).
Proof.
  destruct (N.lt_ge_cases n 64) as [Hn|Hn]; [rewrite b64val_char; eauto|].
  unfold b64char. decide_tests. vm_compute. eauto.
Qed.

Lemma b64encode_alphabet_len n : forall bs,
  (length bs <= n)%nat ->
  Forall (fun c => is_Some (b64val c) \/ c = pad) (b64encode bs).
Proof.
  induction n as [|n IH]; intros bs Hlen.
  { destruct bs; [constructor | cbn in Hlen; lia]. }
  destruct bs as [|a [|b [|c r]]]; cbn [b64encode];
    repeat (apply Forall_cons; split);
    try (left; apply b64char_in_alphabet); try (by right); try constructor.
  apply IH. cbn in Hlen. lia.
Qed.

Lemma b64encode_alphabet bs :
  Forall (fun c => is_Some (b64val c) \/ c = pad) (b64encode bs).
Proof. by apply (b64encode_alphabet_len (length bs)). Qed.

Lemma well_formed_svg_title p :
  well_formed (svg_of p) <-> well_formed (slice_to 80 (effective_prompt p)).
Proof.
  unfold svg_of, well_formed. rewrite !Forall_app. split; [tauto|].
  intros Ht. split; [|split; [exact Ht|]]; by apply well_formed_forallb.
Qed.

Section MoreImageFacts.
Context `{Database}.

(** The handler returns as soon as the title can be encoded. *)
Lemma image_returns_title req w :
  well_formed (slice_to 80 (effective_prompt (ImageRequest.prompt req))) ->
  exists bs,
    utf8_encode (svg_of (ImageRequest.prompt req)) = Some bs
    /\ (image req w).1 = inr (py "data:image/svg+xml;base64," ++ b64encode bs)
    /\ decode_data_uri (py "data:image/svg+xml;base64," ++ b64encode bs)
       = Some (svg_of (ImageRequest.prompt req)).
Proof.
  intros Hp%well_formed_svg_title.
  destruct (utf8_encode_well_formed _ Hp) as [bs Hbs].
  exists bs. split; [exact Hbs|]. split.
  - by rewrite image_run, Hbs, (utf8_decode_ascii _ (b64encode_ascii bs)).
  - rewrite decode_data_uri_encoded by (by eapply utf8_encode_bytes).
    by apply utf8_decode_encode.
Qed.

(** X13: the image depends on the request only through the title, the
    first 80 characters of the trimmed prompt (or of "Shahbaz AI"): the
    style, the rest of the prompt and the state of the store never
    change what is returned. *)
Theorem image_depends_on_title req1 req2 (w1 w2 : World) :
  slice_to 80 (effective_prompt (ImageRequest.prompt req1))
  = slice_to 80 (effective_prompt (ImageRequest.prompt req2)) ->
  (image req1 w1).1 = (image req2 w2).1.
Proof.
  intros Ht. rewrite (image_run req1 w1), (image_run req2 w2). unfold svg_of. rewrite Ht.
  destruct (utf8_encode _) as [bs|]; [|reflexivity].
  destruct (utf8_decode _) as [b64|]; reflexivity.
Qed.

(** X14: for a title without lone surrogates the data URI is plain
    ASCII: the fixed media-type prefix followed by base64 text, drawn
    from the base64 alphabet and "=", whose length is a multiple of 4. *)
Theorem image_uri_ascii req w :
  well_formed (slice_to 80 (effective_prompt (ImageRequest.prompt req))) ->
  exists b64,
    (image req w).1 = inr (py "data:image/svg+xml;base64," ++ b64)
    /\ Forall (fun c => c < 128) (py "data:image/svg+xml;base64," ++ b64)
    /\ Forall (fun c => is_Some (b64val c) \/ c = pad) b64
    /\ (length b64 mod 4 = 0)%nat.
Proof.
  intros Hp. destruct (image_returns_title req w Hp) as (bs & _ & Hres & _).
  exists (b64encode bs). split; [exact Hres|]. split; [|split].
  - apply Forall_app. split; [|apply b64encode_ascii].
    apply Forall_forall. intros c Hc%list_elem_of_In.
    assert (Hall : forallb (fun c => c <? 128) (py "data:image/svg+xml;base64,") = true)
      by reflexivity.
    rewrite forallb_forall in Hall. by apply N.ltb_lt, Hall.
  - apply b64encode_alphabet.
  - rewrite b64encode_length. by rewrite Nat.mul_comm, Nat.Div0.mod_mul.
Qed.

(** X15: the size of the result is bounded whatever the size of the
    prompt: the title has at most 80 characters and the data URI between
    1802 and 2226. *)
Theorem image_uri_bounded req w uri :
  (image req w).1 = inr uri ->
  (length (slice_to 80 (effective_prompt (ImageRequest.prompt req))) <= 80)%nat
  /\ (1802 <= length uri <= 2226)%nat.
Proof.
  intros Hres. split; [unfold slice_to; rewrite length_take; lia|].
  rewrite image_run in Hres.
  destruct (utf8_encode _) as [bs|] eqn:Hbs; [|discriminate].
  rewrite (utf8_decode_ascii _ (b64encode_ascii bs)) in Hres.
  cbn [fst] in Hres.
  assert (Huri : uri = py "data:image/svg+xml;base64," ++ b64encode bs) by congruence.
  rewrite Huri. clear Hres Huri uri.
  unfold svg_of in Hbs. rewrite !utf8_encode_app in Hbs.
  destruct (utf8_encode svg_head) as [h|] eqn:Hh; [|discriminate].
  destruct (utf8_encode (slice_to 80 _)) as [t|] eqn:Ht; [|discriminate].
  destruct (utf8_encode svg_tail) as [l|] eqn:Hl; [|discriminate].
  injection Hbs as <-.
  assert (Hhl : length h = 1137%nat /\ length l = 193%nat).
  { assert (Hh' : utf8_encode svg_head = Some h) by exact Hh.
    assert (Hl' : utf8_encode svg_tail = Some l) by exact Hl.
    clear -Hh' Hl'. vm_compute in Hh', Hl'.
    injection Hh' as <-. injection Hl' as <-. split; reflexivity. }
  destruct Hhl as [Hlh Hll].
  pose proof (utf8_encode_length _ _ Ht) as Hlt.
  unfold slice_to in Hlt. rewrite length_take in Hlt.
  rewrite length_app, b64encode_length, !length_app, Hlh, Hll.
  replace (length (py "data:image/svg+xml;base64,")) with 26%nat by reflexivity.
  assert (Hn : (length t <= 320)%nat) by lia.
  clear -Hn. generalize dependent (length t). intros n Hn.
  pose proof (Nat.div_mod_eq (1137 + (n + 193) + 2) 3) as Hd.
  pose proof (Nat.mod_upper_bound (1137 + (n + 193) + 2) 3) as Hm.
  lia.
Qed.

(** X16: what decides whether [image] raises is the title alone. When
    every character of the title can be encoded the handler returns,
    whatever the store does and whatever follows the first 80
    characters of the prompt; when the title holds a lone surrogate the
    handler raises UnicodeEncodeError before it calls the store, for the
    encoding is outside the try block. *)
Theorem image_raises_iff req w :
  (well_formed (slice_to 80 (effective_prompt (ImageRequest.prompt req))) ->
   exists uri, (image req w).1 = inr uri)
  /\ (~ well_formed (slice_to 80 (effective_prompt (ImageRequest.prompt req))) ->
      image req w = (inl UnicodeEncodeError, w)).
Proof.
  split.
  - intros Hp. destruct (image_returns_title req w Hp) as (bs & _ & Hres & _). eauto.
  - intros Hp. rewrite image_run.
    destruct (utf8_encode _) as [bs|] eqn:Hbs; [|reflexivity].
    destruct Hp. by apply well_formed_svg_title, (utf8_encode_Some _ bs).
Qed.

(** X17: the stand-in title is for the empty prompt only. A prompt
    that is not empty but all whitespace is trimmed to nothing after the
    test for emptiness, and the image carries an empty title. *)
Theorem image_blank_prompt req w :
  ImageRequest.prompt req <> [] ->
  forallb isspace (ImageRequest.prompt req) = true ->
  exists uri,
    (image req w).1 = inr uri
    /\ decode_data_uri uri ≫= embedded_title = Some [].
Proof.
  intros Hne Hws.
  assert (Ht : slice_to 80 (effective_prompt (ImageRequest.prompt req)) = []).
  { unfold effective_prompt. destruct (ImageRequest.prompt req) as [|c p]; [done|].
    unfold strip. by rewrite (lstrip_spaces _ Hws). }
  destruct (image_returns_title req w) as (bs & _ & Hres & Hdec);
    [rewrite Ht; constructor|].
  eexists. split; [exact Hres|]. rewrite Hdec. cbv [mbind option_bind].
  unfold svg_of. rewrite Ht. apply embedded_title_svg.
Qed.

End MoreImageFacts.

(** ** The listing routes *)

Lemma stringify_ids_ok docs :
  Forall has_id docs ->
  exists out, stringify_ids docs = inr out /\ Forall2 id_stringified docs out.
Proof.
  induction 1 as [|d docs [v Hv] _ (out & Hout & Hall)].
  - exists []. split; [reflexivity | constructor].
  - exists (<[py "_id" := VStr (py_str v)]> d :: out). cbn [stringify_ids].
    rewrite Hv, Hout. split; [reflexivity|]. constructor; [|exact Hall].
    exists v. split; [exact Hv|]. split; [apply lookup_insert_eq|].
    intros k Hk. by apply lookup_insert_ne.
Qed.

Lemma stringify_ids_missing docs :
  ~ Forall has_id docs -> stringify_ids docs = inl (KeyError (py "_id")).
Proof.
  induction docs as [|d docs IH]; intros Hno; [destruct Hno; constructor|].
  cbn [stringify_ids]. destruct (d !! py "_id") as [v|] eqn:Hv; [|reflexivity].
  rewrite IH; [reflexivity|]. intros Hall. apply Hno. constructor; [|exact Hall].
  by exists v.
Qed.

Section ListingFacts.
Context `{ExnText} `{DocumentQueries}.

(** X18: [list_sessions] makes one query, on chatsession with an empty
    filter and the limit (50 when left out), and writes nothing. If the
    store raises, or a document has no "_id", the route raises
    HTTPException 500 with the text of the exception, and returns no
    partial list; otherwise it returns the documents of the store in
    their order, each with "_id" turned into text and nothing else
    changed. *)
Theorem list_sessions_spec limit w :
  let q := database_find (py "chatsession") ∅ (default 50%Z limit) (store w) in
  let res := list_sessions limit w in
  store res.2 = q.2 /\ calls res.2 = calls w
  /\ match q.1 with
     | inl e => res.1 = inl {| status_code := 500; detail := exn_str e |}
     | inr docs =>
         (Forall has_id docs ->
          exists out, res.1 = inr out /\ Forall2 id_stringified docs out)
         /\ (~ Forall has_id docs ->
             res.1 = inl {| status_code := 500; detail := py "'_id'" |})
     end.
Proof.
  unfold list_sessions, get_documents.
  destruct (database_find _ _ _ _) as [[e|docs] s']; cbn [fst snd store calls].
  - auto.
  - split; [|split; [|split]].
    + by destruct (stringify_ids docs).
    + by destruct (stringify_ids docs).
    + intros Hall. destruct (stringify_ids_ok docs Hall) as (out & -> & Hout). eauto.
    + intros Hno. by rewrite (stringify_ids_missing docs Hno).
Qed.

(** X19: [list_messages] makes one query, on chatmessage with the
    filter that holds exactly the session id asked for and the limit
    (200 when left out), and writes nothing. Failures and results are
    those of the session listing: HTTPException 500 with the text of the
    exception and no partial list, or the documents in order with "_id"
    turned into text. *)
Theorem list_messages_spec session_id limit w :
  let q := database_find (py "chatmessage") {[py "session_id" := VStr session_id]}
             (default 200%Z limit) (store w) in
  let res := list_messages session_id limit w in
  store res.2 = q.2 /\ calls res.2 = calls w
  /\ match q.1 with
     | inl e => res.1 = inl {| status_code := 500; detail := exn_str e |}
     | inr docs =>
         (Forall has_id docs ->
          exists out, res.1 = inr out /\ Forall2 id_stringified docs out)
         /\ (~ Forall has_id docs ->
             res.1 = inl {| status_code := 500; detail := py "'_id'" |})
     end.
Proof.
  unfold list_messages, get_documents.
  destruct (database_find _ _ _ _) as [[e|docs] s']; cbn [fst snd store calls].
  - auto.
  - split; [|split; [|split]].
    + by destruct (stringify_ids docs).
    + by destruct (stringify_ids docs).
    + intros Hall. destruct (stringify_ids_ok docs Hall) as (out & -> & Hout). eauto.
    + intros Hno. by rewrite (stringify_ids_missing docs Hno).
Qed.

End ListingFacts.

(** ** The connectivity report *)

(** X20: [test_database] always reports. It lists at most 10
    collections, the first ones the store names, and lists any only
    when it reports "Connected & Working"; the status is "Connected"
    exactly when there is a handle; a failure of the listing is put,
    cut to 50 characters, in the database field; and an environment
    variable set to the empty string is reported as not set. *)
Theorem test_database_report `{ExnText} db getenv :
  let r := test_database db getenv in
  (length (DbReport.collections r) <= 10)%nat
  /\ (forall names, db = Some (inr names) -> DbReport.collections r = take 10 names)
  /\ (DbReport.collections r <> [] -> DbReport.database r = py "✅ Connected & Working")
  /\ (DbReport.connection_status r = py "Connected" <-> db <> None)
  /\ (forall e, db = Some (inl e) ->
        DbReport.database r = py "⚠️  Connected but Error: " ++ take 50 (exn_str e)
        /\ (length (DbReport.database r) <= 75)%nat)
  /\ (db <> None -> getenv (py "DATABASE_URL") = Some [] ->
        DbReport.database_url r = Some (py "❌ Not Set"))
  /\ (db <> None -> getenv (py "DATABASE_NAME") = Some [] ->
        DbReport.database_name r = Some (py "❌ Not Set")).
Proof.
  intros r. subst r. unfold test_database.
  destruct db as [[e|names]|]; cbn [DbReport.collections DbReport.database
    DbReport.connection_status DbReport.database_url DbReport.database_name].
  - split; [cbn; lia|]. split; [discriminate|]. split; [done|].
    split; [split; [discriminate | reflexivity]|].
    split; [|split].
    + intros e' [= <-]. split; [reflexivity|].
      rewrite length_app, length_take.
      replace (length (py "⚠️  Connected but Error: ")) with 25%nat by reflexivity. lia.
    + intros _ ->. reflexivity.
    + intros _ ->. reflexivity.
  - split; [rewrite length_take; lia|]. split; [by intros ? [= <-]|].
    split; [reflexivity|]. split; [split; [discriminate | reflexivity]|].
    split; [discriminate|]. split.
    + intros _ ->. reflexivity.
    + intros _ ->. reflexivity.
  - split; [cbn; lia|]. split; [discriminate|]. split; [done|].
    split; [split; [literals_differ | done]|].
    split; [discriminate|]. split; done.
Qed.

(** ** The added properties on concrete inputs *)

Lemma generate_reply_ignores_padding_witness :
  forallb isspace (py "  ") = true /\ forallb isspace (py "\n") = true
  /\ @_generate_reply ascii_runtime (py "  " ++ py "hello" ++ py "\n")
       (py "translation") (py "ur")
     = @_generate_reply ascii_runtime (py "hello") (py "translation") (py "ur").
Proof.
  split; [reflexivity|]. split; [reflexivity|].
  exact (@generate_reply_ignores_padding ascii_runtime (py "  ") (py "\n") (py "hello")
           (py "translation") (py "ur") eq_refl eq_refl).
Defined.

Lemma generate_reply_language_only_in_translation_witness :
  py "summary" <> py "translation"
  /\ @_generate_reply ascii_runtime (py "a b c") (py "summary") (py "en")
     = @_generate_reply ascii_runtime (py "a b c") (py "summary") (py "ur").
Proof.
  assert (Hm : py "summary" <> py "translation") by literals_differ.
  split; [exact Hm|].
  exact (@generate_reply_language_only_in_translation ascii_runtime (py "a b c")
           (py "summary") (py "en") (py "ur") Hm).
Defined.

Lemma generate_reply_default_core_witness :
  py "student" <> py "translation" /\ py "student" <> py "summary"
  /\ py "student" <> py "writing"
  /\ @_generate_reply ascii_runtime (py " why? ") (py "student") (py "hi")
     = @_generate_reply ascii_runtime (py " why? ") (py "qa") (py "hi").
Proof.
  assert (H1 : py "student" <> py "translation") by literals_differ.
  assert (H2 : py "student" <> py "summary") by literals_differ.
  assert (H3 : py "student" <> py "writing") by literals_differ.
  split; [exact H1|]. split; [exact H2|]. split; [exact H3|].
  exact (proj1 (@generate_reply_default_core ascii_runtime (py " why? ") (py "student")
                  (py "hi") H1 H2 H3)).
Defined.

Lemma summary_reply_words_witness :
  (40 < length (split forty_one_words))%nat
  /\ exists w40, split forty_one_words !! 39%nat = Some w40
       /\ split (@_generate_reply ascii_runtime forty_one_words (py "summary") (py "en"))
          = py "Summary:" :: take 39 (split forty_one_words) ++ [w40 ++ py "…"].
Proof.
  assert (Hlen : (40 < length (split forty_one_words))%nat)
    by (apply Nat.ltb_lt; vm_compute; reflexivity).
  split; [exact Hlen|].
  exact (proj1 (proj2 (@summary_reply_words ascii_runtime forty_one_words (py "en"))) Hlen).
Defined.

Lemma writing_reply_bounded_witness :
  slice_to 60 (strip forty_words) = slice_to 60 (strip forty_one_words)
  /\ @_generate_reply ascii_runtime forty_words (py "writing") (py "en")
     = @_generate_reply ascii_runtime forty_one_words (py "writing") (py "ur").
Proof.
  assert (Hs : slice_to 60 (strip forty_words) = slice_to 60 (strip forty_one_words))
    by (vm_compute; reflexivity).
  split; [exact Hs|].
  exact (proj1 (@writing_reply_bounded ascii_runtime forty_words (py "en"))
           forty_one_words (py "ur") Hs).
Defined.

Lemma chat_translation_default_language_witness :
  exists resp w',
    translation_run = (inr resp, w')
    /\ ChatRequest.mode translation_request = Some Translation
    /\ ChatRequest.language translation_request = None
    /\ ChatResponse.reply resp
       = py "Translation (en): " ++ strip (ChatRequest.message translation_request).
Proof.
  assert (Hrun : exists resp w', translation_run = (inr resp, w'))
    by (eexists _, _; vm_compute; reflexivity).
  destruct Hrun as (resp & w' & Hrun). exists resp, w'.
  split; [exact Hrun|]. split; [reflexivity|]. split; [reflexivity|].
  exact (@chat_translation_default_language ascii_runtime MemStore.database
           translation_request MemStore.world resp w' eq_refl (or_introl eq_refl) Hrun).
Defined.

Lemma chat_response_shape_witness :
  demo_run = (inr demo_response, demo_run.2)
  /\ ChatResponse.mode demo_response ∈ get_modes
  /\ length (ChatResponse.suggestions demo_response) = 3%nat.
Proof.
  pose proof (@chat_response_shape ascii_runtime MemStore.database demo_request
                MemStore.world _ _ demo_run_eq) as (Hm & _ & Hl & _).
  split; [exact demo_run_eq|]. split; [exact Hm | exact Hl].
Defined.

Lemma chat_raises_inv_witness :
  exists e w',
    failing_run = (inl e, w')
    /\ exists sid k c d s,
         @planned_calls ascii_runtime FlakyStore.database demo_request
           (FlakyStore.world [py "chatmessage"]) sid !! k = Some (c, d)
         /\ calls w' = take (S k)
              (@planned_calls ascii_runtime FlakyStore.database demo_request
                 (FlakyStore.world [py "chatmessage"]) sid)
         /\ FlakyStore.insert c d s = (inl e, store w').
Proof.
  assert (Hrun : exists e w', failing_run = (inl e, w'))
    by (eexists _, _; vm_compute; reflexivity).
  destruct Hrun as (e & w' & Hrun). exists e, w'. split; [exact Hrun|].
  destruct (@chat_raises_inv ascii_runtime FlakyStore.database demo_request
              (FlakyStore.world [py "chatmessage"]) e w' Hrun)
    as (sid & k & c & d & s & Hk & Hcalls & Hins & _).
  exists sid, k, c, d, s. auto.
Defined.

Lemma chat_session_continues_witness :
  demo_run = (inr demo_response, demo_run.2)
  /\ ChatResponse.session_id demo_response <> []
  /\ ChatRequest.session_id demo_followup = Some (ChatResponse.session_id demo_response)
  /\ followup_run = (inr followup_response, followup_run.2)
  /\ ChatResponse.session_id followup_response = ChatResponse.session_id demo_response
  /\ inserts_into (py "chatsession") (new_calls demo_run.2 followup_run.2) = [].
Proof.
  assert (Hne : ChatResponse.session_id demo_response <> []) by discriminate.
  pose proof (@chat_session_continues ascii_runtime MemStore.database demo_request
                demo_followup MemStore.world _ _ _ _ demo_run_eq Hne eq_refl
                followup_run_eq) as (Hid & Hnone & _).
  split; [exact demo_run_eq|]. split; [exact Hne|]. split; [reflexivity|].
  split; [exact followup_run_eq|]. split; [exact Hid | exact Hnone].
Defined.


Lemma image_depends_on_title_witness :
  slice_to 80 (effective_prompt (ImageRequest.prompt (styled_image None)))
  = slice_to 80 (effective_prompt (ImageRequest.prompt (styled_image (Some (py "neon")))))
  /\ (@image FlakyStore.database (styled_image None) (FlakyStore.world [])).1
     = (@image FlakyStore.database (styled_image (Some (py "neon")))
          (FlakyStore.world [py "imagerequest"])).1.
Proof.
  split; [reflexivity|].
  exact (@image_depends_on_title FlakyStore.database (styled_image None)
           (styled_image (Some (py "neon"))) (FlakyStore.world [])
           (FlakyStore.world [py "imagerequest"]) eq_refl).
Defined.

Lemma demo_image_title_well_formed :
  well_formed (slice_to 80 (effective_prompt (ImageRequest.prompt demo_image))).
Proof. apply well_formed_forallb. vm_compute. reflexivity. Qed.

Lemma image_uri_ascii_witness :
  well_formed (slice_to 80 (effective_prompt (ImageRequest.prompt demo_image)))
  /\ exists b64,
       (@image MemStore.database demo_image MemStore.world).1
         = inr (py "data:image/svg+xml;base64," ++ b64)
       /\ Forall (fun c => c < 128) (py "data:image/svg+xml;base64," ++ b64).
Proof.
  split; [exact demo_image_title_well_formed|].
  destruct (@image_uri_ascii MemStore.database demo_image MemStore.world
              demo_image_title_well_formed) as (b64 & Hres & Hascii & _).
  exists b64. auto.
Defined.

Lemma image_uri_bounded_witness :
  exists uri,
    (@image MemStore.database demo_image MemStore.world).1 = inr uri
    /\ (1802 <= length uri <= 2226)%nat.
Proof.
  destruct (@image_returns_title MemStore.database demo_image MemStore.world
              demo_image_title_well_formed) as (bs & _ & Hres & _).
  eexists. split; [exact Hres|].
  exact (proj2 (@image_uri_bounded MemStore.database demo_image MemStore.world _ Hres)).
Defined.

Lemma image_raises_iff_witness :
  (exists uri, (@image MemStore.database late_surrogate_image MemStore.world).1 = inr uri)
  /\ ~ well_formed (ImageRequest.prompt late_surrogate_image)
  /\ @image MemStore.database surrogate_image MemStore.world
     = (inl UnicodeEncodeError, MemStore.world).
Proof.
  split; [|split].
  - apply (proj1 (@image_raises_iff MemStore.database late_surrogate_image MemStore.world)).
    apply well_formed_forallb. vm_compute. reflexivity.
  - intros Hw. apply Forall_app in Hw as [_ Hw]. apply Forall_cons in Hw as [Hc _].
    discriminate Hc.
  - apply (proj2 (@image_raises_iff MemStore.database surrogate_image MemStore.world)).
    intros Hw.
    assert (Ht : slice_to 80 (effective_prompt (ImageRequest.prompt surrogate_image))
                 = [0xD800]) by reflexivity.
    rewrite Ht in Hw. apply Forall_cons in Hw as [Hc _]. discriminate Hc.
Defined.

Lemma image_blank_prompt_witness :
  ImageRequest.prompt blank_image <> []
  /\ forallb isspace (ImageRequest.prompt blank_image) = true
  /\ exists uri,
       (@image MemStore.database blank_image MemStore.world).1 = inr uri
       /\ decode_data_uri uri ≫= embedded_title = Some [].
Proof.
  assert (Hne : ImageRequest.prompt blank_image <> []) by discriminate.
  split; [exact Hne|]. split; [reflexivity|].
  exact (@image_blank_prompt MemStore.database blank_image MemStore.world Hne eq_refl).
Defined.

Lemma canned_rows_have_id : Forall has_id CannedStore.rows.
Proof. repeat constructor; vm_compute; eauto. Qed.

Lemma list_sessions_spec_witness :
  Forall has_id CannedStore.rows
  /\ exists out,
       (@list_sessions CannedStore.text MemStore.database
          (CannedStore.canned (inr CannedStore.rows)) None MemStore.world).1 = inr out
       /\ Forall2 id_stringified CannedStore.rows out.
Proof.
  split; [exact canned_rows_have_id|].
  exact (proj1 (proj2 (proj2 (@list_sessions_spec CannedStore.text MemStore.database
                                (CannedStore.canned (inr CannedStore.rows)) None
                                MemStore.world)))
           canned_rows_have_id).
Defined.

Lemma canned_bad_rows_lack_id : ~ Forall has_id CannedStore.bad_rows.
Proof.
  intros Hall. apply Forall_cons in Hall as [_ Hall].
  apply Forall_cons in Hall as [[v Hv] _]. vm_compute in Hv. discriminate Hv.
Qed.

Lemma list_messages_spec_witness :
  ~ Forall has_id CannedStore.bad_rows
  /\ (@list_messages CannedStore.text MemStore.database
        (CannedStore.canned (inr CannedStore.bad_rows)) (py "s1") (Some 10%Z)
        MemStore.world).1
     = inl {| status_code := 500; detail := py "'_id'" |}.
Proof.
  split; [exact canned_bad_rows_lack_id|].
  exact (proj2 (proj2 (proj2 (@list_messages_spec CannedStore.text MemStore.database
                                (CannedStore.canned (inr CannedStore.bad_rows)) (py "s1")
                                (Some 10%Z) MemStore.world)))
           canned_bad_rows_lack_id).
Defined.

Example list_sessions_store_down :
  (@list_sessions CannedStore.text MemStore.database
     (CannedStore.canned (inl CannedStore.timeout)) None MemStore.world).1
  = inl {| status_code := 500; detail := py "store: ServerSelectionTimeoutError" |}.
Proof. vm_compute. reflexivity. Qed.

Lemma test_database_report_witness :
  let r := @test_database CannedStore.text (Some (inr twelve_collections)) demo_env in
  Some (inr twelve_collections) <> (None : option (exn + list pystr))
  /\ demo_env (py "DATABASE_URL") = Some []
  /\ DbReport.collections r = take 10 twelve_collections
  /\ DbReport.database_url r = Some (py "❌ Not Set").
Proof.
  intros r.
  assert (Hdb : Some (inr twelve_collections) <> (None : option (exn + list pystr)))
    by discriminate.
  assert (Henv : demo_env (py "DATABASE_URL") = Some []) by reflexivity.
  pose proof (@test_database_report CannedStore.text (Some (inr twelve_collections))
                demo_env) as (_ & Hc & _ & _ & _ & Hurl & _).
  split; [exact Hdb|]. split; [exact Henv|].
  split; [exact (Hc _ eq_refl) | exact (Hurl Hdb Henv)].
Defined.

Example test_database_demo :
  let r := @test_database CannedStore.text (Some (inr twelve_collections)) demo_env in
  length (DbReport.collections r) = 10%nat
  /\ DbReport.database_name r = Some (py "shahbaz")
  /\ DbReport.database r = py "✅ Connected & Working".
Proof. vm_compute. auto. Qed.
